(** * server.js: tool dispatch over a GitHub client

    A shallow embedding of [src/server.js]: the error normaliser
    [handleGitHubError], the six adapters of [toolImplementations] and the
    route handler of [POST /tools/:toolName], followed by the properties
    the specification states about them.

    The embedding keeps the shape of the JavaScript.  Values are JSON-like
    terms, a property read on [undefined] or [null] raises a [TypeError],
    every adapter is one [try]/[catch] around an awaited call of the
    Octokit client, and the trace of a run records which adapter the route
    invoked and which upstream requests were made. *)

From Stdlib Require Import ZArith NArith List String Ascii Bool Lia.
Import ListNotations.
Local Open Scope string_scope.
Set Warnings "-register-all".

(** ** JavaScript values *)

(** What [JSON.parse] can produce, plus [undefined].  A string stands for
    the text it holds (its UTF-8 bytes); a number is an integer, which is
    all the server ever inspects: numbers are passed along or tested for
    truthiness. *)
Inductive value : Type :=
| VUndefined
| VNull
| VBool (b : bool)
| VNum (n : Z)
| VStr (s : string)
| VArr (items : list value)
| VObj (props : list (string * value)).

(** [!!v] *)
Definition truthy (v : value) : bool :=
  match v with
  | VUndefined | VNull => false
  | VBool b => b
  | VNum n => negb (n =? 0)%Z
  | VStr s => negb (s =? "")%string
  | VArr _ | VObj _ => true
  end.

Definition nullish (v : value) : bool :=
  match v with
  | VUndefined | VNull => true
  | _ => false
  end.

Definition is_null (v : value) : bool :=
  match v with
  | VNull => true
  | _ => false
  end.

(** [a || b] *)
Definition or_else (a b : value) : value := if truthy a then a else b.

(** [v === 'lit'] for a string literal *)
Definition is_string (v : value) (lit : string) : bool :=
  match v with
  | VStr s => (s =? lit)%string
  | _ => false
  end.

Fixpoint lookup (k : string) (props : list (string * value)) : option value :=
  match props with
  | [] => None
  | (k', v) :: rest => if (k' =? k)%string then Some v else lookup k rest
  end.

(** The value of [v.k] when [v] is neither [undefined] nor [null].  The
    keys the server reads ([owner], [data], [type], [login], ...) are own
    properties of parsed JSON or absent; none of them lives on a built-in
    prototype, so a primitive or an array has none of them. *)
Definition field (v : value) (k : string) : value :=
  match v with
  | VObj props => match lookup k props with Some x => x | None => VUndefined end
  | _ => VUndefined
  end.

(** ** Exceptions *)

(** A thrown value is an [Error] object: Octokit rejects with a
    [RequestError], which carries the HTTP [status] of the upstream
    response, and the engine raises [TypeError]s, which have no [status]
    property. *)
Record Error : Type := mkError { status : option Z; message : string }.

Definition TypeError (msg : string) : Error :=
  {| status := None; message := msg |}.

Inductive Result (A : Type) : Type :=
| Return (a : A)
| Throw (e : Error).
Arguments Return {A} a.
Arguments Throw {A} e.

(** ** The host

    What Node does where the server hands it something the source does not
    spell out: the wording of engine errors, string conversion of a value
    that is not a primitive, [Buffer.from] on something that is not a
    7-bit string, and the methods every object literal inherits from
    [Object.prototype]. *)
Class Host : Type := {
  (** message of the TypeError for [v.k] with [v] undefined or null *)
  cannot_read : value -> string -> string;
  (** message of the TypeError for [const { k } = v] with [v] undefined or null *)
  cannot_destructure : value -> string -> string;
  (** message of the TypeError for calling [callee], which is no function *)
  not_a_function : string -> string;
  (** [`${v}`] for a number, an array or an object *)
  ToString_other : value -> Result string;
  (** [Buffer.from(v, 'base64')] for [v] other than a 7-bit string *)
  Buffer_from_other : value -> Result (list ascii);
  (** [toolImplementations[k](args)] for [k] inherited from [Object.prototype] *)
  Object_prototype_call : string -> value -> Result value
}.

(** ** The Octokit client and the monad of a request *)

(** The five REST methods the adapters call. *)
Inductive endpoint : Type :=
| repos_get
| issues_listForRepo
| repos_getContent
| search_code_
| repos_listCommits.

(** A client, real or stubbed: what awaiting [octokit.rest.<method>(params)]
    gives, a response object or a rejection. *)
Definition Octokit : Type := endpoint -> value -> Result value.

Inductive event : Type :=
| Invoked (toolName : string) (args : value)
| Requested (method : endpoint) (params : value).

(** A computation reads the module-level [octokit] binding, which stays
    [undefined] when no token is set, returns or throws, and leaves a
    trace. *)
Definition M (A : Type) : Type := option Octokit -> Result A * list event.

Definition ret {A} (a : A) : M A := fun _ => (Return a, []).

Definition throw {A} (e : Error) : M A := fun _ => (Throw e, []).

Definition lift {A} (r : Result A) : M A := fun _ => (r, []).

Definition bind {A B} (m : M A) (f : A -> M B) : M B :=
  fun octokit =>
    match m octokit with
    | (Return a, t1) => let (r, t2) := f a octokit in (r, (t1 ++ t2)%list)
    | (Throw e, t1) => (Throw e, t1)
    end.

(** [try { body } catch (error) { handler }] *)
Definition try_catch {A} (body : M A) (handler : Error -> M A) : M A :=
  fun octokit =>
    match body octokit with
    | (Return a, t1) => (Return a, t1)
    | (Throw e, t1) => let (r, t2) := handler e octokit in (r, (t1 ++ t2)%list)
    end.

Definition trace (e : event) : M unit := fun _ => (Return tt, [e]).

Declare Scope js_scope.
Delimit Scope js_scope with js.
Notation "x <- m ;; k" := (bind m (fun x => k))
  (at level 61, m at next level, right associativity) : js_scope.
Notation "m ;; k" := (bind m (fun _ => k))
  (at level 61, right associativity) : js_scope.
Local Open Scope js_scope.

Fixpoint mapM {A B} (f : A -> M B) (l : list A) : M (list B) :=
  match l with
  | [] => ret []
  | x :: rest => y <- f x ;; ys <- mapM f rest ;; ret (y :: ys)
  end.

(** ** Buffer: base64 in, UTF-8 out

    [Buffer.from(s, 'base64')] as Node decodes it: a character outside the
    alphabet (white space, line breaks) is skipped, [=] ends the input, the
    URL-safe [-] and [_] are accepted next to [+] and [/], and the sextets
    left are packed four to three bytes, a trailing pair or triple giving
    one or two bytes. *)
Local Open Scope N_scope.

Definition unbase64 (c : ascii) : option N :=
  let n := N_of_ascii c in
  if (65 <=? n) && (n <=? 90) then Some (n - 65)
  else if (97 <=? n) && (n <=? 122) then Some (n - 71)
  else if (48 <=? n) && (n <=? 57) then Some (n + 4)
  else if (n =? 43) || (n =? 45) then Some 62
  else if (n =? 47) || (n =? 95) then Some 63
  else None.

Fixpoint sextets (s : string) : list N :=
  match s with
  | EmptyString => []
  | String c rest =>
      match unbase64 c with
      | Some v => v :: sextets rest
      | None => if (c =? "=")%char then [] else sextets rest
      end
  end.

Fixpoint octets (l : list N) : list ascii :=
  match l with
  | a :: b :: c :: d :: rest =>
      ascii_of_N (a * 4 + b / 16)
        :: ascii_of_N (b mod 16 * 16 + c / 4)
        :: ascii_of_N (c mod 4 * 64 + d) :: octets rest
  | [a; b; c] => [ascii_of_N (a * 4 + b / 16); ascii_of_N (b mod 16 * 16 + c / 4)]
  | [a; b] => [ascii_of_N (a * 4 + b / 16)]
  | _ => []
  end.

Definition base64_decode (s : string) : list ascii := octets (sextets s).

Definition seven_bit (s : string) : bool :=
  forallb (fun c => N_of_ascii c <? 128) (list_ascii_of_string s).

(** [buf.toString('utf-8')]: a well-formed sequence is kept and every
    maximal ill-formed part becomes U+FFFD, the text being held as UTF-8. *)
Definition replacement : list ascii :=
  [ascii_of_N 239; ascii_of_N 191; ascii_of_N 189].

Record pending : Type := mkPending {
  seen : list ascii;
  needed : nat;
  lower : N;
  upper : N
}.

Definition utf8_lead (b : ascii) : list ascii * option pending :=
  let n := N_of_ascii b in
  if n <=? 127 then ([b], None)
  else if (194 <=? n) && (n <=? 223) then ([], Some (mkPending [b] 1 128 191))
  else if (224 <=? n) && (n <=? 239) then
    ([], Some (mkPending [b] 2 (if n =? 224 then 160 else 128)
                               (if n =? 237 then 159 else 191)))
  else if (240 <=? n) && (n <=? 244) then
    ([], Some (mkPending [b] 3 (if n =? 240 then 144 else 128)
                               (if n =? 244 then 143 else 191)))
  else (replacement, None).

Fixpoint utf8_decode (st : option pending) (bs : list ascii) : list ascii :=
  match bs with
  | [] => match st with None => [] | Some _ => replacement end
  | b :: rest =>
      match st with
      | None => let (out, st') := utf8_lead b in out ++ utf8_decode st' rest
      | Some p =>
          let n := N_of_ascii b in
          if (lower p <=? n) && (n <=? upper p) then
            match needed p with
            | S (S k) => utf8_decode (Some (mkPending (seen p ++ [b]) (S k) 128 191)) rest
            | _ => seen p ++ [b] ++ utf8_decode None rest
            end
          else
            let (out, st') := utf8_lead b in
            replacement ++ out ++ utf8_decode st' rest
      end
  end%list.

Definition toString_utf8 (buf : list ascii) : string :=
  string_of_list_ascii (utf8_decode None buf).

(** The encoder of RFC 4648, section 4, which is what the upstream applies
    to a file before it sends it; the server itself never encodes. *)
Definition base64_alphabet : list ascii :=
  list_ascii_of_string
    "ABCDEFGHIJKLMNOPQRSTUVWXYZabcdefghijklmnopqrstuvwxyz0123456789+/".

Definition base64_char (n : N) : ascii :=
  nth (N.to_nat n) base64_alphabet "="%char.

Fixpoint rfc4648_encode (bs : list ascii) : string :=
  match bs with
  | x :: y :: z :: rest =>
      let a := N_of_ascii x in
      let b := N_of_ascii y in
      let c := N_of_ascii z in
      String (base64_char (a / 4))
        (String (base64_char (a mod 4 * 16 + b / 16))
           (String (base64_char (b mod 16 * 4 + c / 64))
              (String (base64_char (c mod 64)) (rfc4648_encode rest))))
  | [x; y] =>
      let a := N_of_ascii x in
      let b := N_of_ascii y in
      String (base64_char (a / 4))
        (String (base64_char (a mod 4 * 16 + b / 16))
           (String (base64_char (b mod 16 * 4)) "="))
  | [x] =>
      let a := N_of_ascii x in
      String (base64_char (a / 4)) (String (base64_char (a mod 4 * 16)) "==")
  | [] => ""
  end.

Local Close Scope N_scope.

Section Server.
Context {host : Host}.

(** [v.k] *)
Definition get (v : value) (k : string) : M value :=
  if nullish v then throw (TypeError (cannot_read v k)) else ret (field v k).

(** [const { k } = v] *)
Definition destructure (v : value) (k : string) : M value :=
  if nullish v then throw (TypeError (cannot_destructure v k)) else ret (field v k).

(** [arr.map(f)], [callee] being the text of [arr.map] *)
Definition js_map (callee : string) (arr : value) (f : value -> M value) : M value :=
  match arr with
  | VArr items => l <- mapM f items ;; ret (VArr l)
  | VUndefined | VNull => throw (TypeError (cannot_read arr "map"))
  | _ => throw (TypeError (not_a_function callee))
  end.

(** [`${v}`] *)
Definition ToString (v : value) : M string :=
  match v with
  | VStr s => ret s
  | VUndefined => ret "undefined"
  | VNull => ret "null"
  | VBool true => ret "true"
  | VBool false => ret "false"
  | _ => lift (ToString_other v)
  end.

(** [await client.rest.<method>(params)]: one upstream request. *)
Definition request (client : Octokit) (method : endpoint) (params : value) : M value :=
  fun _ => (client method params, [Requested method params]).

(** [octokit.rest.<method>]: the callee is evaluated before the argument
    object is built, and fails on the [undefined] binding. *)
Definition octokit_rest (method : endpoint) : M (value -> M value) :=
  fun octokit =>
    match octokit with
    | None => (Throw (TypeError (cannot_read VUndefined "rest")), [])
    | Some client => (Return (request client method), [])
    end.

(** [!octokit] *)
Definition octokit_missing : M bool :=
  fun octokit =>
    (Return match octokit with None => true | Some _ => false end, []).

(** ** Helper function to handle GitHub API errors *)

Definition error_body (msg : string) : value := VObj [("error", VStr msg)].

Definition handleGitHubError (error : Error) : value :=
  match status error with
  | Some 404%Z => error_body "Resource not found"
  | Some 403%Z => error_body "Rate limit exceeded or insufficient permissions"
  | _ => error_body ("GitHub API error: " ++ message error)
  end.

(** ** Tool implementations *)

Definition get_repository_info (args : value) : M value :=
  try_catch
    (repos_get_ <- octokit_rest repos_get ;;
     owner <- get args "owner" ;;
     repo <- get args "repo" ;;
     response <- repos_get_ (VObj [("owner", owner); ("repo", repo)]) ;;
     data <- destructure response "data" ;;
     name <- get data "name" ;;
     full_name <- get data "full_name" ;;
     description <- get data "description" ;;
     language <- get data "language" ;;
     stars <- get data "stargazers_count" ;;
     forks <- get data "forks_count" ;;
     open_issues <- get data "open_issues_count" ;;
     created_at <- get data "created_at" ;;
     updated_at <- get data "updated_at" ;;
     clone_url <- get data "clone_url" ;;
     default_branch <- get data "default_branch" ;;
     ret (VObj [("name", name); ("full_name", full_name);
                ("description", description); ("language", language);
                ("stars", stars); ("forks", forks);
                ("open_issues", open_issues); ("created_at", created_at);
                ("updated_at", updated_at); ("clone_url", clone_url);
                ("default_branch", default_branch)]))
    (fun error => ret (handleGitHubError error)).

Definition list_issues (args : value) : M value :=
  try_catch
    (listForRepo <- octokit_rest issues_listForRepo ;;
     owner <- get args "owner" ;;
     repo <- get args "repo" ;;
     state <- get args "state" ;;
     per_page <- get args "per_page" ;;
     response <- listForRepo
       (VObj [("owner", owner); ("repo", repo);
              ("state", or_else state (VStr "open"));
              ("per_page", or_else per_page (VNum 30))]) ;;
     data <- destructure response "data" ;;
     js_map "data.map" data (fun issue =>
       number <- get issue "number" ;;
       title <- get issue "title" ;;
       body <- get issue "body" ;;
       state <- get issue "state" ;;
       user <- get issue "user" ;;
       author <- get user "login" ;;
       created_at <- get issue "created_at" ;;
       updated_at <- get issue "updated_at" ;;
       labels <- get issue "labels" ;;
       labels <- js_map "issue.labels.map" labels (fun label => get label "name") ;;
       assignees <- get issue "assignees" ;;
       assignees <- js_map "issue.assignees.map" assignees
                      (fun assignee => get assignee "login") ;;
       ret (VObj [("number", number); ("title", title); ("body", body);
                  ("state", state); ("author", author);
                  ("created_at", created_at); ("updated_at", updated_at);
                  ("labels", labels); ("assignees", assignees)])))
    (fun error => ret (handleGitHubError error)).

(** [Buffer.from(v, 'base64')] *)
Definition Buffer_from_base64 (v : value) : M (list ascii) :=
  match v with
  | VStr s => if seven_bit s then ret (base64_decode s) else lift (Buffer_from_other v)
  | _ => lift (Buffer_from_other v)
  end.

Definition get_file_contents (args : value) : M value :=
  try_catch
    (getContent <- octokit_rest repos_getContent ;;
     owner <- get args "owner" ;;
     repo <- get args "repo" ;;
     path <- get args "path" ;;
     ref <- get args "ref" ;;
     response <- getContent
       (VObj [("owner", owner); ("repo", repo); ("path", path);
              ("ref", or_else ref (VStr "main"))]) ;;
     data <- destructure response "data" ;;
     type <- get data "type" ;;
     if is_string type "file" then
       encoded <- get data "content" ;;
       buf <- Buffer_from_base64 encoded ;;
       let content := toString_utf8 buf in
       name <- get data "name" ;;
       path <- get data "path" ;;
       size <- get data "size" ;;
       sha <- get data "sha" ;;
       ret (VObj [("name", name); ("path", path); ("size", size);
                  ("content", VStr content); ("sha", sha)])
     else
       ret (error_body "Path is not a file"))
    (fun error => ret (handleGitHubError error)).

(** [`${args.query} repo:${args.owner}/${args.repo}`] *)
Definition search_query (args : value) : M string :=
  query <- get args "query" ;;
  query <- ToString query ;;
  owner <- get args "owner" ;;
  owner <- ToString owner ;;
  repo <- get args "repo" ;;
  repo <- ToString repo ;;
  ret (query ++ " repo:" ++ owner ++ "/" ++ repo).

Definition search_files (args : value) : M value :=
  try_catch
    (query <- search_query args ;;
     code <- octokit_rest search_code_ ;;
     response <- code (VObj [("q", VStr query); ("per_page", VNum 30)]) ;;
     data <- destructure response "data" ;;
     total_count <- get data "total_count" ;;
     items <- get data "items" ;;
     items <- js_map "data.items.map" items (fun item =>
       name <- get item "name" ;;
       path <- get item "path" ;;
       sha <- get item "sha" ;;
       url <- get item "html_url" ;;
       score <- get item "score" ;;
       ret (VObj [("name", name); ("path", path); ("sha", sha);
                  ("url", url); ("score", score)])) ;;
     ret (VObj [("total_count", total_count); ("items", items)]))
    (fun error => ret (handleGitHubError error)).

Definition get_commits (args : value) : M value :=
  try_catch
    (listCommits <- octokit_rest repos_listCommits ;;
     owner <- get args "owner" ;;
     repo <- get args "repo" ;;
     sha <- get args "sha" ;;
     per_page <- get args "per_page" ;;
     response <- listCommits
       (VObj [("owner", owner); ("repo", repo);
              ("sha", or_else sha (VStr "main"));
              ("per_page", or_else per_page (VNum 30))]) ;;
     data <- destructure response "data" ;;
     js_map "data.map" data (fun commit =>
       sha <- get commit "sha" ;;
       inner <- get commit "commit" ;;
       message <- get inner "message" ;;
       author <- get inner "author" ;;
       author_name <- get author "name" ;;
       author_email <- get author "email" ;;
       author_date <- get author "date" ;;
       committer <- get inner "committer" ;;
       committer_name <- get committer "name" ;;
       committer_email <- get committer "email" ;;
       committer_date <- get committer "date" ;;
       url <- get commit "html_url" ;;
       ret (VObj [("sha", sha); ("message", message);
                  ("author", VObj [("name", author_name);
                                   ("email", author_email);
                                   ("date", author_date)]);
                  ("committer", VObj [("name", committer_name);
                                      ("email", committer_email);
                                      ("date", committer_date)]);
                  ("url", url)])))
    (fun error => ret (handleGitHubError error)).

Definition search_code (args : value) : M value :=
  try_catch
    (query <- search_query args ;;
     code <- octokit_rest search_code_ ;;
     response <- code (VObj [("q", VStr query); ("per_page", VNum 30)]) ;;
     data <- destructure response "data" ;;
     total_count <- get data "total_count" ;;
     items <- get data "items" ;;
     items <- js_map "data.items.map" items (fun item =>
       name <- get item "name" ;;
       path <- get item "path" ;;
       sha <- get item "sha" ;;
       url <- get item "html_url" ;;
       score <- get item "score" ;;
       text_matches <- get item "text_matches" ;;
       ret (VObj [("name", name); ("path", path); ("sha", sha);
                  ("url", url); ("score", score);
                  ("text_matches", or_else text_matches (VArr []))])) ;;
     ret (VObj [("total_count", total_count); ("items", items)]))
    (fun error => ret (handleGitHubError error)).

(** The six own properties of the [toolImplementations] literal. *)
Inductive tool : Type :=
| Tget_repository_info
| Tlist_issues
| Tget_file_contents
| Tsearch_files
| Tget_commits
| Tsearch_code.

Definition tool_name (t : tool) : string :=
  match t with
  | Tget_repository_info => "get_repository_info"
  | Tlist_issues => "list_issues"
  | Tget_file_contents => "get_file_contents"
  | Tsearch_files => "search_files"
  | Tget_commits => "get_commits"
  | Tsearch_code => "search_code"
  end.

Definition adapter (t : tool) : value -> M value :=
  match t with
  | Tget_repository_info => get_repository_info
  | Tlist_issues => list_issues
  | Tget_file_contents => get_file_contents
  | Tsearch_files => search_files
  | Tget_commits => get_commits
  | Tsearch_code => search_code
  end.

Definition all_tools : list tool :=
  [Tget_repository_info; Tlist_issues; Tget_file_contents;
   Tsearch_files; Tget_commits; Tsearch_code].

Definition own_property (toolName : string) : option tool :=
  find (fun t => (tool_name t =? toolName)%string) all_tools.

(** What an object literal inherits: the properties of [Object.prototype].
    Each of them holds a function or, for [__proto__], the prototype
    itself, so each is truthy. *)
Definition Object_prototype_keys : list string :=
  ["constructor"; "__defineGetter__"; "__defineSetter__"; "hasOwnProperty";
   "__lookupGetter__"; "__lookupSetter__"; "isPrototypeOf";
   "propertyIsEnumerable"; "toString"; "valueOf"; "__proto__";
   "toLocaleString"].

(** [toolImplementations[toolName]]: [None] is [undefined], anything
    else is truthy and is what the call [toolImplementations[toolName](args)]
    runs; the lookup follows the prototype chain. *)
Definition toolImplementations (toolName : string) : option (value -> M value) :=
  match own_property toolName with
  | Some t => Some (adapter t)
  | None =>
      if existsb (String.eqb toolName) Object_prototype_keys
      then Some (fun args => lift (Object_prototype_call toolName args))
      else None
  end.

(** ** Routes *)

Record Response : Type := json { statusCode : Z; body : value }.

(** [app.post('/tools/:toolName', ...)] over a table of implementations;
    [reqBody] is [req.body] as [express.json()] left it.  A [Throw] is the
    handler's promise rejecting without a response. *)
Definition post_tools_with (impls : string -> option (value -> M value))
    (toolName : string) (reqBody : value) : M Response :=
  args <- destructure reqBody "arguments" ;;
  match impls toolName with
  | None => ret (json 404 (error_body "Tool not found"))
  | Some impl =>
      missing <- octokit_missing ;;
      if missing then
        ret (json 500 (error_body "GitHub token not configured"))
      else
        try_catch
          (trace (Invoked toolName args) ;;
           result <- impl args ;;
           ret (json 200 result))
          (fun error => ret (json 500 (error_body (message error))))
  end.

Definition post_tools : string -> value -> M Response :=
  post_tools_with toolImplementations.

End Server.

(** ** Test doubles

    A host and two clients to run the server on: the host words its errors
    as V8 does and rejects what it is not asked about in the examples. *)
Definition stub_host : Host := {|
  cannot_read := fun v k =>
    "Cannot read properties of "
      ++ (if is_null v then "null" else "undefined")
      ++ " (reading '" ++ k ++ "')";
  cannot_destructure := fun v k =>
    "Cannot destructure property '" ++ k ++ "' of "
      ++ (if is_null v then "null" else "undefined");
  not_a_function := fun callee => callee ++ " is not a function";
  ToString_other := fun _ => Return "[object Object]";
  Buffer_from_other := fun _ =>
    Throw (TypeError "The first argument must be of type string");
  Object_prototype_call := fun k _ =>
    if (k =? "__proto__")%string
    then Throw (TypeError "toolImplementations[toolName] is not a function")
    else Return (VStr "[object Object]")
|}.

(** A client whose every request is rejected with the given status. *)
Definition rejecting (code : Z) (msg : string) : Octokit :=
  fun _ _ => Throw {| status := Some code; message := msg |}.

(** A client that answers every request with the same payload. *)
Definition answering (data : value) : Octokit :=
  fun _ _ => Return (VObj [("status", VNum 200); ("data", data)]).

(** A request body naming the repository the server defaults to. *)
Definition sample_args : value :=
  VObj [("owner", VStr "octocat"); ("repo", VStr "Hello-World")].

Definition sample_body : value := VObj [("arguments", sample_args)].

(** One issue with two labels and one assignee. *)
Definition sample_issue : value :=
  VObj [("number", VNum 1347); ("title", VStr "Found a bug");
        ("body", VStr "I'm having a problem with this."); ("state", VStr "open");
        ("user", VObj [("login", VStr "octocat"); ("id", VNum 1)]);
        ("created_at", VStr "2011-04-22T13:33:48Z");
        ("updated_at", VStr "2011-04-22T13:33:48Z");
        ("labels", VArr [VObj [("id", VNum 208045946); ("name", VStr "bug")];
                         VObj [("id", VNum 208045947); ("name", VStr "ui")]]);
        ("assignees", VArr [VObj [("login", VStr "hubot"); ("id", VNum 2)]])].

(** A table whose [get_commits] throws. *)
Definition faulty_table : string -> option (value -> M value) :=
  fun toolName =>
    if (toolName =? "get_commits")%string
    then Some (fun _ => throw (TypeError "commit.commit is undefined"))
    else None.

(** ** Vocabulary of the properties *)

(** A computation that makes no upstream request and invokes no tool. *)
Definition pure {A} (m : M A) : Prop := forall octokit, snd (m octokit) = [].

(** Under [client], a rejected request of [m] is what [m] throws. *)
Definition propagates {A} (client : Octokit) (m : M A) : Prop :=
  forall method params e,
    In (Requested method params) (snd (m (Some client))) ->
    client method params = Throw e ->
    fst (m (Some client)) = Throw e.

(** The payload of [repos.getContent] for a directory: the listing of its
    entries, or in a stub an object of type "dir". *)
Definition is_directory (data : value) : bool :=
  match data with
  | VArr _ => true
  | VObj _ => is_string (field data "type") "dir"
  | _ => false
  end.

(** The content of a file as the upstream sends it is base64 broken into
    lines. *)
Fixpoint without_line_breaks (s : string) : string :=
  match s with
  | EmptyString => EmptyString
  | String c rest =>
      if (c =? "010")%char then without_line_breaks rest
      else String c (without_line_breaks rest)
  end.

(** Well-formed UTF-8 (Unicode, table 3-7): the byte sequences that
    encode a scalar value, shortest form only and no surrogates. *)
Fixpoint well_formed_utf8 (bs : list ascii) : bool :=
  match bs with
  | [] => true
  | b1 :: rest1 =>
      let n1 := N_of_ascii b1 in
      if (n1 <=? 127)%N then well_formed_utf8 rest1
      else
        match rest1 with
        | [] => false
        | b2 :: rest2 =>
            let n2 := N_of_ascii b2 in
            if ((194 <=? n1) && (n1 <=? 223))%N then
              ((128 <=? n2) && (n2 <=? 191))%N && well_formed_utf8 rest2
            else
              match rest2 with
              | [] => false
              | b3 :: rest3 =>
                  let n3 := N_of_ascii b3 in
                  if ((224 <=? n1) && (n1 <=? 239))%N then
                    (((if n1 =? 224 then 160 else 128) <=? n2)
                     && (n2 <=? (if n1 =? 237 then 159 else 191)))%N
                    && ((128 <=? n3) && (n3 <=? 191))%N
                    && well_formed_utf8 rest3
                  else
                    match rest3 with
                    | [] => false
                    | b4 :: rest4 =>
                        let n4 := N_of_ascii b4 in
                        ((240 <=? n1) && (n1 <=? 244))%N
                        && (((if n1 =? 240 then 144 else 128) <=? n2)
                            && (n2 <=? (if n1 =? 244 then 143 else 191)))%N
                        && ((128 <=? n3) && (n3 <=? 191))%N
                        && ((128 <=? n4) && (n4 <=? 191))%N
                        && well_formed_utf8 rest4
                    end
              end
        end
  end.

Definition elements (v : value) : list value :=
  match v with
  | VArr items => items
  | _ => []
  end.

Definition is_array (v : value) : bool :=
  match v with
  | VArr _ => true
  | _ => false
  end.

Definition present (v : value) : bool := negb (nullish v).

(** An issue of the upstream listing: it has an author, and its labels and
    assignees are arrays of objects. *)
Definition well_formed_issue (issue : value) : bool :=
  present issue && present (field issue "user")
  && is_array (field issue "labels")
  && forallb present (elements (field issue "labels"))
  && is_array (field issue "assignees")
  && forallb present (elements (field issue "assignees")).

Definition label_names (issue : value) : list value :=
  map (fun label => field label "name") (elements (field issue "labels")).

Definition assignee_logins (issue : value) : list value :=
  map (fun assignee => field assignee "login") (elements (field issue "assignees")).

(** The output element the specification describes for one issue. *)
Definition issue_summary (issue : value) : value :=
  VObj [("number", field issue "number"); ("title", field issue "title");
        ("body", field issue "body"); ("state", field issue "state");
        ("author", field (field issue "user") "login");
        ("created_at", field issue "created_at");
        ("updated_at", field issue "updated_at");
        ("labels", VArr (label_names issue));
        ("assignees", VArr (assignee_logins issue))].

(** ** The rest of the server: registry, discovery route, start-up *)

(** [const tools = {...}]: the declared schema of each tool. *)
Definition string_type : value := VObj [("type", VStr "string")].

Definition schema (properties : list (string * value)) (required : list string) : value :=
  VObj [("type", VStr "object"); ("properties", VObj properties);
        ("required", VArr (map VStr required))].

Definition tools : value :=
  VObj
    [("get_repository_info",
      VObj [("name", VStr "get_repository_info");
            ("description", VStr "Get basic repository information");
            ("inputSchema",
             schema [("owner", string_type); ("repo", string_type)]
                    ["owner"; "repo"])]);
     ("list_issues",
      VObj [("name", VStr "list_issues");
            ("description", VStr "Get repository issues");
            ("inputSchema",
             schema [("owner", string_type); ("repo", string_type);
                     ("state", VObj [("type", VStr "string");
                                     ("enum", VArr [VStr "open"; VStr "closed";
                                                    VStr "all"])]);
                     ("per_page", VObj [("type", VStr "number");
                                        ("default", VNum 30)])]
                    ["owner"; "repo"])]);
     ("get_file_contents",
      VObj [("name", VStr "get_file_contents");
            ("description", VStr "Read file contents from repository");
            ("inputSchema",
             schema [("owner", string_type); ("repo", string_type);
                     ("path", string_type);
                     ("ref", VObj [("type", VStr "string");
                                   ("default", VStr "main")])]
                    ["owner"; "repo"; "path"])]);
     ("search_files",
      VObj [("name", VStr "search_files");
            ("description", VStr "Search for files by name or pattern");
            ("inputSchema",
             schema [("owner", string_type); ("repo", string_type);
                     ("query", string_type);
                     ("path", VObj [("type", VStr "string");
                                    ("default", VStr EmptyString)])]
                    ["owner"; "repo"; "query"])]);
     ("get_commits",
      VObj [("name", VStr "get_commits");
            ("description", VStr "Get recent commits");
            ("inputSchema",
             schema [("owner", string_type); ("repo", string_type);
                     ("sha", VObj [("type", VStr "string");
                                   ("default", VStr "main")]);
                     ("per_page", VObj [("type", VStr "number");
                                        ("default", VNum 30)])]
                    ["owner"; "repo"])]);
     ("search_code",
      VObj [("name", VStr "search_code");
            ("description", VStr "Search for code content in repository");
            ("inputSchema",
             schema [("owner", string_type); ("repo", string_type);
                     ("query", string_type)]
                    ["owner"; "repo"; "query"])])].

(** [Object.values(o)]: the own values in insertion order. *)
Definition Object_values (o : value) : list value :=
  match o with
  | VObj props => map snd props
  | _ => []
  end.

(** [Object.keys(o)] *)
Definition Object_keys (o : value) : list string :=
  match o with
  | VObj props => map fst props
  | _ => []
  end.

(** [app.get('/tools', ...)] *)
Definition get_tools : Response := json 200 (VArr (Object_values tools)).

(** [process.env]: a variable is a string or unset. *)
Definition Env : Type := string -> option string.

(** The [octokit] binding after the module has loaded: the client is
    constructed when [GITHUB_TOKEN] is truthy, that is set and not empty.
    [new_Octokit] stands for [new Octokit({ auth })]. *)
Definition octokit_at_startup (new_Octokit : string -> Octokit) (env : Env)
  : option Octokit :=
  match env "GITHUB_TOKEN" with
  | Some token => if (token =? "")%string then None else Some (new_Octokit token)
  | None => None
  end.

(** More payloads to run the adapters on. *)
Definition sample_repository : value :=
  VObj [("name", VStr "Hello-World"); ("full_name", VStr "octocat/Hello-World");
        ("stargazers_count", VNum 80); ("forks_count", VNum 9);
        ("watchers_count", VNum 80); ("default_branch", VStr "master")].

Definition sample_commit : value :=
  VObj [("sha", VStr "6dcb09b5b57875f334f61aebed695e2e4193db5e");
        ("commit",
         VObj [("message", VStr "Fix all the bugs");
               ("author",
                VObj [("name", VStr "Monalisa Octocat");
                      ("email", VStr "support@github.com");
                      ("date", VStr "2011-04-14T16:00:49Z")]);
               ("committer",
                VObj [("name", VStr "Monalisa Octocat");
                      ("email", VStr "support@github.com");
                      ("date", VStr "2011-04-14T16:00:49Z")])]);
        ("html_url", VStr "https://github.com/octocat/Hello-World/commit/6dcb09b")].

Definition authorless_commit : value :=
  VObj [("sha", VStr "7fd1a60b01f91b314f59955a4e4d4e80d8edf11d");
        ("commit",
         VObj [("message", VStr "Merge pull request #6");
               ("author", VNull); ("committer", VNull)])].

Definition authorless_issue : value :=
  VObj [("number", VNum 1348); ("title", VStr "Ghost"); ("user", VNull);
        ("labels", VArr []); ("assignees", VArr [])].

Definition sample_match : value :=
  VObj [("name", VStr "classes.js"); ("path", VStr "src/attributes/classes.js");
        ("sha", VStr "d7212f9dee2dcc18f084d7df8f417b80846ded5a");
        ("html_url", VStr "https://github.com/jquery/jquery/blob/825ac37/src/attributes/classes.js");
        ("score", VNum 1)].

(** ** Vocabulary of the further properties *)

(** The REST method each adapter awaits. *)
Definition endpoint_of (t : tool) : endpoint :=
  match t with
  | Tget_repository_info => repos_get
  | Tlist_issues => issues_listForRepo
  | Tget_file_contents => repos_getContent
  | Tsearch_files => search_code_
  | Tget_commits => repos_listCommits
  | Tsearch_code => search_code_
  end.

(** The first property an adapter reads off its arguments. *)
Definition first_read (t : tool) : string :=
  match t with
  | Tsearch_files | Tsearch_code => "query"
  | _ => "owner"
  end.

Definition is_request (e : event) : bool :=
  match e with
  | Requested _ _ => true
  | Invoked _ _ => false
  end.

(** A computation whose trace is empty or one request of [method]. *)
Definition at_most_one_request {A} (method : endpoint) (m : M A) : Prop :=
  forall octokit,
    snd (m octokit) = [] \/
    exists params, snd (m octokit) = [Requested method params].

(** The text a template literal makes of a primitive without asking the
    host. *)
Definition primitive_text (v : value) : option string :=
  match v with
  | VStr s => Some s
  | VUndefined => Some "undefined"
  | VNull => Some "null"
  | VBool true => Some "true"
  | VBool false => Some "false"
  | _ => None
  end.

(** The summary of the repository payload. *)
Definition repository_summary (data : value) : value :=
  VObj [("name", field data "name"); ("full_name", field data "full_name");
        ("description", field data "description");
        ("language", field data "language");
        ("stars", field data "stargazers_count");
        ("forks", field data "forks_count");
        ("open_issues", field data "open_issues_count");
        ("created_at", field data "created_at");
        ("updated_at", field data "updated_at");
        ("clone_url", field data "clone_url");
        ("default_branch", field data "default_branch")].

(** A commit of the upstream listing: it has git data with an author and
    a committer. *)
Definition well_formed_commit (commit : value) : bool :=
  present commit && present (field commit "commit")
  && present (field (field commit "commit") "author")
  && present (field (field commit "commit") "committer").

Definition signature (who : value) : value :=
  VObj [("name", field who "name"); ("email", field who "email");
        ("date", field who "date")].

Definition commit_summary (commit : value) : value :=
  VObj [("sha", field commit "sha");
        ("message", field (field commit "commit") "message");
        ("author", signature (field (field commit "commit") "author"));
        ("committer", signature (field (field commit "commit") "committer"));
        ("url", field commit "html_url")].

Definition file_match (item : value) : value :=
  VObj [("name", field item "name"); ("path", field item "path");
        ("sha", field item "sha"); ("url", field item "html_url");
        ("score", field item "score")].

Definition code_match (item : value) : value :=
  VObj [("name", field item "name"); ("path", field item "path");
        ("sha", field item "sha"); ("url", field item "html_url");
        ("score", field item "score");
        ("text_matches", or_else (field item "text_matches") (VArr []))].

(** * Properties *)

(** ** Base64 and UTF-8 *)

Section Buffer.
Local Open Scope N_scope.

Lemma list_ind3 {A} (P : list A -> Prop) :
  P [] -> (forall x, P [x]) -> (forall x y, P [x; y]) ->
  (forall x y z l, P l -> P (x :: y :: z :: l)) ->
  forall l, P l.
Proof.
  intros H0 H1 H2 H3.
  fix IH 1. intros [| x [| y [| z l]]];
    [apply H0 | apply H1 | apply H2 | apply H3; apply IH].
Qed.

Lemma unbase64_base64_char n :
  n < 64 -> unbase64 (base64_char n) = Some n.
Proof.
  intros Hn.
  assert (Hall : forallb
            (fun i => match unbase64 (base64_char (N.of_nat i)) with
                      | Some m => m =? N.of_nat i
                      | None => false
                      end) (seq 0 64) = true) by (vm_compute; reflexivity).
  rewrite forallb_forall in Hall.
  specialize (Hall (N.to_nat n)).
  rewrite N2Nat.id in Hall.
  assert (Hin : In (N.to_nat n) (seq 0 64)) by (apply in_seq; lia).
  specialize (Hall Hin).
  destruct (unbase64 (base64_char n)) as [m |]; [| discriminate].
  apply N.eqb_eq in Hall. congruence.
Qed.

Lemma base64_char_seven_bit n : N_of_ascii (base64_char n) < 128.
Proof.
  unfold base64_char.
  destruct (nth_in_or_default (N.to_nat n) base64_alphabet "="%char) as [Hin | ->].
  - assert (Hall : forallb (fun c => N_of_ascii c <? 128) base64_alphabet = true)
      by (vm_compute; reflexivity).
    rewrite forallb_forall in Hall.
    apply N.ltb_lt. apply Hall. exact Hin.
  - vm_compute. reflexivity.
Qed.

Lemma sextets_char n rest :
  n < 64 -> sextets (String (base64_char n) rest) = n :: sextets rest.
Proof.
  intros Hn. cbn [sextets]. rewrite unbase64_base64_char by assumption.
  reflexivity.
Qed.

Lemma sextets_padding rest : sextets (String "=" rest) = [].
Proof. reflexivity. Qed.

Ltac byte_bounds :=
  repeat match goal with
         | x : ascii |- _ =>
             lazymatch goal with
             | _ : N_of_ascii x < 256 |- _ => fail
             | _ => pose proof (N_ascii_bounded x)
             end
         end.

Ltac arith := byte_bounds; zify; Z.to_euclidean_division_equations; lia.

(** Decoding undoes the encoder of RFC 4648. *)
Lemma base64_decode_encode bytes :
  base64_decode (rfc4648_encode bytes) = bytes.
Proof.
  unfold base64_decode.
  induction bytes as [| x | x y | x y z rest IH] using list_ind3.
  - reflexivity.
  - cbn [rfc4648_encode].
    rewrite !sextets_char, sextets_padding by arith.
    cbn [octets].
    replace (N_of_ascii x / 4 * 4 + N_of_ascii x mod 4 * 16 / 16)
      with (N_of_ascii x) by arith.
    rewrite ascii_N_embedding. reflexivity.
  - cbn [rfc4648_encode].
    rewrite !sextets_char, sextets_padding by arith.
    cbn [octets].
    replace (N_of_ascii x / 4 * 4 + (N_of_ascii x mod 4 * 16 + N_of_ascii y / 16) / 16)
      with (N_of_ascii x) by arith.
    replace ((N_of_ascii x mod 4 * 16 + N_of_ascii y / 16) mod 16 * 16
             + N_of_ascii y mod 16 * 4 / 4)
      with (N_of_ascii y) by arith.
    rewrite !ascii_N_embedding. reflexivity.
  - cbn [rfc4648_encode].
    rewrite !sextets_char by arith.
    cbn [octets]. rewrite IH.
    replace (N_of_ascii x / 4 * 4 + (N_of_ascii x mod 4 * 16 + N_of_ascii y / 16) / 16)
      with (N_of_ascii x) by arith.
    replace ((N_of_ascii x mod 4 * 16 + N_of_ascii y / 16) mod 16 * 16
             + (N_of_ascii y mod 16 * 4 + N_of_ascii z / 64) / 4)
      with (N_of_ascii y) by arith.
    replace ((N_of_ascii y mod 16 * 4 + N_of_ascii z / 64) mod 4 * 64
             + N_of_ascii z mod 64)
      with (N_of_ascii z) by arith.
    rewrite !ascii_N_embedding. reflexivity.
Qed.

Lemma seven_bit_encode bytes : seven_bit (rfc4648_encode bytes) = true.
Proof.
  unfold seven_bit.
  induction bytes as [| x | x y | x y z rest IH] using list_ind3;
    cbn [rfc4648_encode list_ascii_of_string forallb];
    repeat match goal with
           | |- context [N_of_ascii (base64_char ?n) <? 128] =>
               rewrite (proj2 (N.ltb_lt _ _) (base64_char_seven_bit n))
           end;
    cbn [andb]; auto.
Qed.

(** Line breaks do not count. *)
Lemma sextets_without_line_breaks s :
  sextets (without_line_breaks s) = sextets s.
Proof.
  induction s as [| c rest IH]; [reflexivity |].
  cbn [without_line_breaks].
  destruct (Ascii.eqb_spec c "010"%char) as [-> | Hc].
  - rewrite IH. reflexivity.
  - cbn [sextets]. rewrite IH. reflexivity.
Qed.

Lemma seven_bit_without_line_breaks s :
  seven_bit (without_line_breaks s) = seven_bit s.
Proof.
  unfold seven_bit.
  induction s as [| c rest IH]; [reflexivity |].
  cbn [without_line_breaks].
  destruct (Ascii.eqb_spec c "010"%char) as [-> | Hc].
  - rewrite IH. reflexivity.
  - cbn [list_ascii_of_string forallb]. rewrite IH. reflexivity.
Qed.

Lemma base64_decode_line_breaks encoded bytes :
  without_line_breaks encoded = rfc4648_encode bytes ->
  seven_bit encoded = true /\ base64_decode encoded = bytes.
Proof.
  intros H. split.
  - rewrite <- seven_bit_without_line_breaks, H. apply seven_bit_encode.
  - unfold base64_decode.
    rewrite <- sextets_without_line_breaks, H.
    apply base64_decode_encode.
Qed.

(** Well-formed UTF-8 is the text it encodes: decoding changes nothing. *)
Lemma utf8_decode_well_formed_upto n :
  forall bytes,
    (List.length bytes <= n)%nat ->
    well_formed_utf8 bytes = true ->
    utf8_decode None bytes = bytes.
Proof.
  induction n as [| n IH]; intros bytes Hlen Hwf.
  - destruct bytes; [reflexivity | cbn in Hlen; lia].
  - destruct bytes as [| b1 rest1]; [reflexivity |].
    cbn [well_formed_utf8] in Hwf. cbn [utf8_decode List.length] in *.
    unfold utf8_lead. cbv zeta in *.
    destruct (N_of_ascii b1 <=? 127) eqn:H1.
    { cbn [app]. rewrite IH by (assumption || lia). reflexivity. }
    destruct rest1 as [| b2 rest2]; [discriminate |].
    destruct ((194 <=? N_of_ascii b1) && (N_of_ascii b1 <=? 223)) eqn:H2.
    { apply andb_prop in Hwf as [Hb2 Hrest].
      cbn [utf8_decode lower upper needed seen app List.length] in *.
      rewrite Hb2, IH by (assumption || lia). reflexivity. }
    destruct rest2 as [| b3 rest3]; [discriminate |].
    destruct ((224 <=? N_of_ascii b1) && (N_of_ascii b1 <=? 239)) eqn:H3.
    { apply andb_prop in Hwf as [Hwf Hrest].
      apply andb_prop in Hwf as [Hb2 Hb3].
      cbn [utf8_decode lower upper needed seen app List.length] in *.
      rewrite Hb2. cbn [utf8_decode lower upper needed seen app].
      rewrite Hb3, IH by (assumption || lia). reflexivity. }
    destruct rest3 as [| b4 rest4]; [discriminate |].
    apply andb_prop in Hwf as [Hwf Hrest].
    apply andb_prop in Hwf as [Hwf Hb4].
    apply andb_prop in Hwf as [Hwf Hb3].
    apply andb_prop in Hwf as [H4 Hb2].
    rewrite H4.
    cbn [utf8_decode lower upper needed seen app List.length] in *.
    rewrite Hb2. cbn [utf8_decode lower upper needed seen app].
    rewrite Hb3. cbn [utf8_decode lower upper needed seen app].
    rewrite Hb4, IH by (assumption || lia). reflexivity.
Qed.

Lemma toString_utf8_well_formed bytes :
  well_formed_utf8 bytes = true ->
  toString_utf8 bytes = string_of_list_ascii bytes.
Proof.
  intros H. unfold toString_utf8.
  rewrite (utf8_decode_well_formed_upto (List.length bytes) bytes (le_n _) H).
  reflexivity.
Qed.

End Buffer.

(** ** Equations of the monad *)

Lemma run_bind {A B} (m : M A) (f : A -> M B) octokit :
  bind m f octokit =
  match m octokit with
  | (Return a, t1) => (fst (f a octokit), (t1 ++ snd (f a octokit))%list)
  | (Throw e, t1) => (Throw e, t1)
  end.
Proof.
  unfold bind.
  destruct (m octokit) as [[a | e] t1]; [destruct (f a octokit) |]; reflexivity.
Qed.

Lemma run_bind_return {A B} (m : M A) (f : A -> M B) octokit a :
  m octokit = (Return a, []) -> bind m f octokit = f a octokit.
Proof.
  intros Hm. rewrite run_bind, Hm. destruct (f a octokit); reflexivity.
Qed.

Lemma run_bind_throw {A B} (m : M A) (f : A -> M B) octokit e t :
  m octokit = (Throw e, t) -> bind m f octokit = (Throw e, t).
Proof.
  intros Hm. rewrite run_bind, Hm. reflexivity.
Qed.

Lemma run_bind_ret {A B} (a : A) (f : A -> M B) octokit :
  bind (ret a) f octokit = f a octokit.
Proof. apply run_bind_return. reflexivity. Qed.

Lemma run_bind_request {B} client method params (f : value -> M B) octokit :
  bind (request client method params) f octokit =
  match client method params with
  | Return response =>
      (fst (f response octokit),
       Requested method params :: snd (f response octokit))
  | Throw e => (Throw e, [Requested method params])
  end.
Proof.
  rewrite run_bind. unfold request.
  destruct (client method params); reflexivity.
Qed.

Lemma run_try_catch {A} (body : M A) (h : Error -> A) octokit :
  try_catch body (fun error => ret (h error)) octokit =
  match body octokit with
  | (Return a, t) => (Return a, t)
  | (Throw e, t) => (Return (h e), t)
  end.
Proof.
  unfold try_catch, ret.
  destruct (body octokit) as [[a | e] t]; [| rewrite app_nil_r]; reflexivity.
Qed.

(** ** Computations without requests *)

Create HintDb js_pure.

Lemma pure_ret {A} (a : A) : pure (ret a).
Proof. intro; reflexivity. Qed.

Lemma pure_throw {A} (e : Error) : pure (@throw A e).
Proof. intro; reflexivity. Qed.

Lemma pure_lift {A} (r : Result A) : pure (lift r).
Proof. intro; reflexivity. Qed.

Lemma pure_bind {A B} (m : M A) (f : A -> M B) :
  pure m -> (forall a, pure (f a)) -> pure (bind m f).
Proof.
  intros Hm Hf octokit. rewrite run_bind.
  specialize (Hm octokit).
  destruct (m octokit) as [[a | e] t1]; cbn in *; subst; [apply Hf | reflexivity].
Qed.

Lemma pure_mapM {A B} (f : A -> M B) (l : list A) :
  (forall x, pure (f x)) -> pure (mapM f l).
Proof.
  intros Hf. induction l as [| x rest IH]; cbn [mapM].
  - apply pure_ret.
  - apply pure_bind; [apply Hf | intro y].
    apply pure_bind; [exact IH | intro ys; apply pure_ret].
Qed.

#[local] Hint Resolve pure_ret pure_throw pure_lift pure_bind pure_mapM : js_pure.

Section Properties.
Context {host : Host}.

Lemma pure_get v k : pure (get v k).
Proof. unfold get. destruct (nullish v); auto with js_pure. Qed.

Lemma pure_destructure v k : pure (destructure v k).
Proof. unfold destructure. destruct (nullish v); auto with js_pure. Qed.

Lemma pure_ToString v : pure (ToString v).
Proof. destruct v as [| | [|] | | | |]; cbn [ToString]; auto with js_pure. Qed.

Lemma pure_Buffer_from_base64 v : pure (Buffer_from_base64 v).
Proof.
  destruct v; cbn [Buffer_from_base64]; auto with js_pure.
  destruct (seven_bit s); auto with js_pure.
Qed.

Lemma pure_js_map callee arr f :
  (forall x, pure (f x)) -> pure (js_map callee arr f).
Proof.
  intros Hf. destruct arr; cbn [js_map]; auto with js_pure.
Qed.

#[local] Hint Resolve pure_get pure_destructure pure_ToString
  pure_Buffer_from_base64 pure_js_map : js_pure.

Lemma pure_search_query args : pure (search_query args).
Proof. unfold search_query. auto 20 with js_pure. Qed.

#[local] Hint Resolve pure_search_query : js_pure.

Lemma pure_run {A} (m : M A) octokit :
  pure m -> m octokit = (fst (m octokit), []).
Proof.
  intros Hm. specialize (Hm octokit).
  destruct (m octokit) as [r t]; cbn in *; subst; reflexivity.
Qed.

(** ** Rejections reach the handler *)

Lemma pure_propagates {A} client (m : M A) : pure m -> propagates client m.
Proof.
  intros Hm method params e Hin. rewrite (Hm (Some client)) in Hin.
  destruct Hin.
Qed.

Lemma propagates_request client method params :
  propagates client (request client method params).
Proof.
  intros method' params' e [Heq | []] Hthrow; cbn in *.
  injection Heq as <- <-. exact Hthrow.
Qed.

Lemma propagates_bind {A B} client (m : M A) (f : A -> M B) :
  propagates client m -> (forall a, propagates client (f a)) ->
  propagates client (bind m f).
Proof.
  intros Hm Hf method params e. rewrite run_bind.
  specialize (Hm method params e). specialize (Hf).
  destruct (m (Some client)) as [[a | e'] t1]; cbn in *.
  - intros Hin Hthrow. apply in_app_or in Hin as [Hin | Hin].
    + specialize (Hm Hin Hthrow). discriminate.
    + exact (Hf a method params e Hin Hthrow).
  - intros Hin Hthrow. specialize (Hm Hin Hthrow).
    injection Hm as ->. reflexivity.
Qed.

Lemma propagates_rest {B} client method (f : (value -> M value) -> M B) :
  propagates client (f (request client method)) ->
  propagates client (bind (octokit_rest method) f).
Proof.
  intros Hf method' params e.
  rewrite (run_bind_return (octokit_rest method) f (Some client)
             (request client method) eq_refl).
  apply Hf.
Qed.

Lemma propagates_if {A} client (b : bool) (m1 m2 : M A) :
  propagates client m1 -> propagates client m2 ->
  propagates client (if b then m1 else m2).
Proof. destruct b; auto. Qed.

Ltac propagate :=
  repeat first
    [ apply pure_propagates; solve [auto 20 with js_pure]
    | apply propagates_request
    | apply propagates_rest
    | apply propagates_if
    | apply propagates_bind; [| intro] ].

(** Every adapter is one [try] whose handler is [handleGitHubError]. *)
Lemma adapter_body t args :
  exists body : M value,
    (forall client, propagates client body) /\
    adapter t args = try_catch body (fun error => ret (handleGitHubError error)).
Proof.
  destruct t; cbn [adapter];
    [ unfold get_repository_info | unfold list_issues | unfold get_file_contents
    | unfold search_files | unfold get_commits | unfold search_code ];
    eexists; (split; [| reflexivity]); intro client; propagate.
Qed.

(** No adapter throws. *)
Lemma adapter_returns t args octokit :
  exists result, fst (adapter t args octokit) = Return result.
Proof.
  destruct (adapter_body t args) as (body & _ & ->).
  rewrite run_try_catch.
  destruct (body octokit) as [[a | e] tr]; eexists; reflexivity.
Qed.

(** A rejected upstream request is answered with what
    [handleGitHubError] makes of the rejection. *)
Lemma adapter_upstream_error t args client method params e :
  In (Requested method params) (snd (adapter t args (Some client))) ->
  client method params = Throw e ->
  fst (adapter t args (Some client)) = Return (handleGitHubError e).
Proof.
  destruct (adapter_body t args) as (body & Hbody & ->).
  rewrite run_try_catch. intros Hin Hthrow.
  specialize (Hbody client method params e).
  destruct (body (Some client)) as [[a | e'] tr]; cbn in *.
  - specialize (Hbody Hin Hthrow). discriminate.
  - specialize (Hbody Hin Hthrow). injection Hbody as ->. reflexivity.
Qed.

(** ** The route *)

Lemma run_post_tools_with impls toolName reqBody octokit :
  nullish reqBody = false ->
  post_tools_with impls toolName reqBody octokit =
  match impls toolName with
  | None => (Return (json 404 (error_body "Tool not found")), [])
  | Some impl =>
      match octokit with
      | None => (Return (json 500 (error_body "GitHub token not configured")), [])
      | Some _ =>
          let args := field reqBody "arguments" in
          match impl args octokit with
          | (Return result, tr) =>
              (Return (json 200 result), Invoked toolName args :: tr)
          | (Throw e, tr) =>
              (Return (json 500 (error_body (message e))), Invoked toolName args :: tr)
          end
      end
  end.
Proof.
  intros Hbody. unfold post_tools_with, destructure. rewrite Hbody, run_bind_ret.
  destruct (impls toolName) as [impl |]; [| reflexivity].
  destruct octokit as [client |].
  - rewrite (run_bind_return octokit_missing _ (Some client) false eq_refl).
    unfold try_catch, bind, trace, ret. cbn.
    destruct (impl (field reqBody "arguments") (Some client)) as [[result | e] tr];
      cbn; rewrite ?app_nil_r; reflexivity.
  - rewrite (run_bind_return octokit_missing _ None true eq_refl). reflexivity.
Qed.

Lemma own_property_name toolName t :
  own_property toolName = Some t -> toolName = tool_name t.
Proof.
  unfold own_property. intros H. apply find_some in H as [_ H].
  apply String.eqb_eq in H. congruence.
Qed.

Lemma own_property_tool_name t : own_property (tool_name t) = Some t.
Proof. destruct t; reflexivity. Qed.

Lemma toolImplementations_own toolName t :
  own_property toolName = Some t -> toolImplementations toolName = Some (adapter t).
Proof. unfold toolImplementations. intros ->. reflexivity. Qed.

(** A name that is neither an own nor an inherited property of the table
    is answered 404, whatever the credential. *)
Lemma unregistered_name_404 toolName reqBody octokit :
  nullish reqBody = false ->
  own_property toolName = None ->
  ~ In toolName Object_prototype_keys ->
  post_tools toolName reqBody octokit =
  (Return (json 404 (error_body "Tool not found")), []).
Proof.
  intros Hbody Hown Hinh. unfold post_tools.
  rewrite run_post_tools_with by assumption.
  unfold toolImplementations. rewrite Hown.
  destruct (existsb (String.eqb toolName) Object_prototype_keys) eqn:Hex;
    [| reflexivity].
  apply existsb_exists in Hex as (k & Hin & Heq).
  apply String.eqb_eq in Heq. subst k. contradiction.
Qed.

(** ** Running an adapter step by step *)

Lemma run_bind_get {B} v k (f : value -> M B) octokit :
  nullish v = false -> bind (get v k) f octokit = f (field v k) octokit.
Proof. intros H. unfold get. rewrite H. apply run_bind_ret. Qed.

Lemma run_bind_destructure {B} v k (f : value -> M B) octokit :
  nullish v = false -> bind (destructure v k) f octokit = f (field v k) octokit.
Proof. intros H. unfold destructure. rewrite H. apply run_bind_ret. Qed.

Lemma run_bind_rest {B} method (f : (value -> M value) -> M B) client :
  bind (octokit_rest method) f (Some client) = f (request client method) (Some client).
Proof. apply run_bind_return. reflexivity. Qed.

Lemma field_present v k : nullish (field v k) = false -> nullish v = false.
Proof. destruct v; cbn; auto. Qed.

Lemma field_string_present v k s : field v k = VStr s -> nullish v = false.
Proof. intros H. apply (field_present v k). rewrite H. reflexivity. Qed.

Lemma is_directory_not_file data :
  is_directory data = true ->
  nullish data = false /\ is_string (field data "type") "file" = false.
Proof.
  destruct data; cbn [is_directory]; try discriminate; intros H.
  - split; reflexivity.
  - split; [reflexivity |].
    destruct (field (VObj props) "type"); cbn in *; try discriminate.
    apply String.eqb_eq in H. subst s. reflexivity.
Qed.

Lemma search_query_strings args query owner repo octokit :
  field args "query" = VStr query ->
  field args "owner" = VStr owner ->
  field args "repo" = VStr repo ->
  search_query args octokit =
  (Return (query ++ " repo:" ++ owner ++ "/" ++ repo), []).
Proof.
  intros Hq Ho Hr.
  pose proof (field_string_present _ _ _ Hq) as Hargs.
  unfold search_query.
  rewrite run_bind_get, Hq by assumption. cbn [ToString]. rewrite run_bind_ret.
  rewrite run_bind_get, Ho by assumption. cbn [ToString]. rewrite run_bind_ret.
  rewrite run_bind_get, Hr by assumption. cbn [ToString]. rewrite run_bind_ret.
  reflexivity.
Qed.

(** One request and a tail that makes none: one request in the trace,
    whatever comes back. *)
Lemma one_request client method params (tail : value -> M value) h :
  (forall response, pure (tail response)) ->
  snd (try_catch (bind (request client method params) tail)
         (fun error => ret (h error)) (Some client)) =
  [Requested method params].
Proof.
  intros Htail. rewrite run_try_catch, run_bind_request.
  destruct (client method params) as [response | e]; [| reflexivity].
  rewrite (Htail response (Some client)).
  destruct (fst (tail response (Some client))); reflexivity.
Qed.

Lemma search_files_request args client q owner repo :
  field args "query" = VStr q ->
  field args "owner" = VStr owner ->
  field args "repo" = VStr repo ->
  snd (search_files args (Some client)) =
  [Requested search_code_
     (VObj [("q", VStr (q ++ " repo:" ++ owner ++ "/" ++ repo));
            ("per_page", VNum 30)])].
Proof.
  intros Hq Ho Hr.
  pose proof (search_query_strings args q owner repo (Some client) Hq Ho Hr) as Hquery.
  unfold search_files, try_catch.
  rewrite (run_bind_return _ _ _ _ Hquery), run_bind_rest.
  match goal with
  | |- context [bind (request client ?method ?params) ?tail] =>
      apply (one_request client method params tail handleGitHubError)
  end.
  intro response. auto 20 with js_pure.
Qed.

Lemma search_code_request args client q owner repo :
  field args "query" = VStr q ->
  field args "owner" = VStr owner ->
  field args "repo" = VStr repo ->
  snd (search_code args (Some client)) =
  [Requested search_code_
     (VObj [("q", VStr (q ++ " repo:" ++ owner ++ "/" ++ repo));
            ("per_page", VNum 30)])].
Proof.
  intros Hq Ho Hr.
  pose proof (search_query_strings args q owner repo (Some client) Hq Ho Hr) as Hquery.
  unfold search_code, try_catch.
  rewrite (run_bind_return _ _ _ _ Hquery), run_bind_rest.
  match goal with
  | |- context [bind (request client ?method ?params) ?tail] =>
      apply (one_request client method params tail handleGitHubError)
  end.
  intro response. auto 20 with js_pure.
Qed.

(** Whatever the arguments, a request of a search adapter is a
    [search.code] request with page size 30. *)
Lemma search_request_shape args client (tail : value -> M value) method params :
  (forall response, pure (tail response)) ->
  In (Requested method params)
    (snd (try_catch
            (query <- search_query args ;;
             code <- octokit_rest search_code_ ;;
             response <- code (VObj [("q", VStr query); ("per_page", VNum 30)]) ;;
             tail response)
            (fun error => ret (handleGitHubError error)) (Some client))) ->
  exists q,
    method = search_code_ /\ params = VObj [("q", VStr q); ("per_page", VNum 30)].
Proof.
  intros Htail.
  pose proof (pure_run (search_query args) (Some client) (pure_search_query args))
    as Hquery.
  destruct (fst (search_query args (Some client))) as [q | e].
  - unfold try_catch.
    rewrite (run_bind_return _ _ _ _ Hquery), run_bind_rest.
    match goal with
    | |- context [bind (request client ?m ?p) ?t] =>
        change (In (Requested method params)
                  (snd (try_catch (bind (request client m p) t)
                          (fun error => ret (handleGitHubError error))
                          (Some client))) ->
                exists q0, method = search_code_ /\
                           params = VObj [("q", VStr q0); ("per_page", VNum 30)]);
        rewrite (one_request client m p t handleGitHubError Htail)
    end.
    intros [Heq | []]. injection Heq as <- <-. exists q. split; reflexivity.
  - unfold try_catch.
    rewrite (run_bind_throw _ _ _ _ _ Hquery). cbn. intros [].
Qed.

Lemma search_files_page_size args client method params :
  In (Requested method params) (snd (search_files args (Some client))) ->
  exists q,
    method = search_code_ /\ params = VObj [("q", VStr q); ("per_page", VNum 30)].
Proof.
  unfold search_files. apply search_request_shape.
  intro response. auto 20 with js_pure.
Qed.

Lemma search_code_page_size args client method params :
  In (Requested method params) (snd (search_code args (Some client))) ->
  exists q,
    method = search_code_ /\ params = VObj [("q", VStr q); ("per_page", VNum 30)].
Proof.
  unfold search_code. apply search_request_shape.
  intro response. auto 20 with js_pure.
Qed.

Lemma mapM_pointwise {A B} (f : A -> M B) (g : A -> B) (ok : A -> bool) l octokit :
  (forall x, ok x = true -> f x octokit = (Return (g x), [])) ->
  forallb ok l = true ->
  mapM f l octokit = (Return (map g l), []).
Proof.
  intros Hf. induction l as [| x rest IH]; [reflexivity |].
  cbn [forallb]. intros H. apply andb_prop in H as [Hx Hrest].
  cbn [mapM map].
  rewrite (run_bind_return _ _ _ _ (Hf x Hx)).
  rewrite (run_bind_return _ _ _ _ (IH Hrest)). reflexivity.
Qed.

Lemma mapM_get items k octokit :
  forallb present items = true ->
  mapM (fun x => get x k) items octokit =
  (Return (map (fun x => field x k) items), []).
Proof.
  apply mapM_pointwise. intros x Hx. apply negb_true_iff in Hx.
  unfold get. rewrite Hx. reflexivity.
Qed.

Lemma js_map_get callee arr k octokit :
  is_array arr = true ->
  forallb present (elements arr) = true ->
  js_map callee arr (fun x => get x k) octokit =
  (Return (VArr (map (fun x => field x k) (elements arr))), []).
Proof.
  destruct arr; try discriminate. intros _ H. cbn [js_map elements] in *.
  rewrite (run_bind_return _ _ _ _ (mapM_get items k octokit H)). reflexivity.
Qed.

Lemma list_issues_request args client :
  nullish args = false ->
  snd (list_issues args (Some client)) =
  [Requested issues_listForRepo
     (VObj [("owner", field args "owner"); ("repo", field args "repo");
            ("state", or_else (field args "state") (VStr "open"));
            ("per_page", or_else (field args "per_page") (VNum 30))])].
Proof.
  intros Hargs. unfold list_issues, try_catch.
  rewrite run_bind_rest, !run_bind_get by assumption.
  match goal with
  | |- context [bind (request client ?method ?params) ?tail] =>
      apply (one_request client method params tail handleGitHubError)
  end.
  intro response. auto 30 with js_pure.
Qed.

Lemma list_issues_reshape args client response issues :
  nullish args = false ->
  client issues_listForRepo
    (VObj [("owner", field args "owner"); ("repo", field args "repo");
           ("state", or_else (field args "state") (VStr "open"));
           ("per_page", or_else (field args "per_page") (VNum 30))]) =
    Return response ->
  field response "data" = VArr issues ->
  forallb well_formed_issue issues = true ->
  fst (list_issues args (Some client)) = Return (VArr (map issue_summary issues)).
Proof.
  intros Hargs Hclient Hdata Hwf.
  assert (Hresponse : nullish response = false)
    by (apply (field_present response "data"); rewrite Hdata; reflexivity).
  unfold list_issues.
  rewrite run_try_catch, run_bind_rest, !run_bind_get by assumption.
  rewrite run_bind_request, Hclient.
  rewrite run_bind_destructure, Hdata by assumption.
  cbn [js_map].
  match goal with
  | |- context [mapM ?f issues] =>
      rewrite (run_bind_return (mapM f issues) _ (Some client)
                 (map issue_summary issues))
  end; [reflexivity |].
  apply (mapM_pointwise _ issue_summary well_formed_issue); [| exact Hwf].
  intros issue Hissue. unfold well_formed_issue in Hissue.
  repeat match goal with
         | H : _ && _ = true |- _ => apply andb_prop in H as [H ?]
         end.
  unfold present in *.
  repeat match goal with
         | H : negb _ = true |- _ => apply negb_true_iff in H
         end.
  rewrite !run_bind_get by assumption.
  rewrite (run_bind_return _ _ _ _
             (js_map_get "issue.labels.map" (field issue "labels") "name"
                (Some client) ltac:(assumption) ltac:(assumption))).
  rewrite run_bind_get by assumption.
  rewrite (run_bind_return _ _ _ _
             (js_map_get "issue.assignees.map" (field issue "assignees") "login"
                (Some client) ltac:(assumption) ltac:(assumption))).
  reflexivity.
Qed.

End Properties.

(** ** The claims of the specification *)

(** C1 (defect).  "constructor" is not one of the six registered tools, yet
    the lookup [toolImplementations[toolName]] finds the function every
    object literal inherits: without a credential the route answers 500
    "GitHub token not configured", and with one it runs the inherited
    function and answers 200 or 500, never 404. *)
Theorem C1_inherited_name_is_not_404 {host : Host} (props : list (string * value)) :
  own_property "constructor" = None /\
  post_tools "constructor" (VObj props) None =
    (Return (json 500 (error_body "GitHub token not configured")), []) /\
  (forall client,
      exists response tr,
        post_tools "constructor" (VObj props) (Some client) = (Return response, tr) /\
        statusCode response <> 404%Z).
Proof.
  split; [reflexivity |]. split.
  - unfold post_tools. rewrite run_post_tools_with by reflexivity. reflexivity.
  - intro client. unfold post_tools. rewrite run_post_tools_with by reflexivity.
    cbn. unfold lift.
    match goal with
    | |- context [Object_prototype_call ?k ?a] =>
        destruct (Object_prototype_call k a)
    end; do 2 eexists; (split; [reflexivity | cbn; discriminate]).
Qed.

(** C2.  For a registered tool name and a request with a body, when the
    [octokit] binding was never set the route answers 500 with the message
    "GitHub token not configured"; the trace is empty, so no adapter was
    invoked and no upstream request made. *)
Theorem C2_no_credential_500 {host : Host} toolName t reqBody :
  own_property toolName = Some t ->
  nullish reqBody = false ->
  post_tools toolName reqBody None =
  (Return (json 500 (VObj [("error", VStr "GitHub token not configured")])), []).
Proof.
  intros Hown Hbody. unfold post_tools.
  rewrite run_post_tools_with by assumption.
  rewrite (toolImplementations_own _ _ Hown). reflexivity.
Qed.

Lemma C2_no_credential_500_witness :
  post_tools (host := stub_host) "list_issues"
    (VObj [("arguments", VObj [("owner", VStr "octocat"); ("repo", VStr "Hello-World")])])
    None =
  (Return (json 500 (VObj [("error", VStr "GitHub token not configured")])), []).
Proof.
  apply (C2_no_credential_500 (host := stub_host) "list_issues" Tlist_issues);
    reflexivity.
Defined.

(** C3.  Whatever the adapter and its arguments, when a request it made
    was rejected with status 404 its result is exactly
    [{error: "Resource not found"}], and with status 403 exactly
    [{error: "Rate limit exceeded or insufficient permissions"}]. *)
Theorem C3_upstream_404_and_403 {host : Host} t args client method params e :
  In (Requested method params) (snd (adapter t args (Some client))) ->
  client method params = Throw e ->
  (status e = Some 404%Z ->
   fst (adapter t args (Some client)) =
   Return (VObj [("error", VStr "Resource not found")])) /\
  (status e = Some 403%Z ->
   fst (adapter t args (Some client)) =
   Return (VObj [("error", VStr "Rate limit exceeded or insufficient permissions")])).
Proof.
  intros Hin Hthrow.
  rewrite (adapter_upstream_error t args client method params e Hin Hthrow).
  unfold handleGitHubError.
  split; intros ->; reflexivity.
Qed.

Lemma C3_upstream_404_and_403_witness :
  fst (adapter (host := stub_host) Tget_commits
         (VObj [("owner", VStr "octocat"); ("repo", VStr "Hello-World")])
         (Some (rejecting 404 "Not Found"))) =
    Return (VObj [("error", VStr "Resource not found")]) /\
  fst (adapter (host := stub_host) Tsearch_code
         (VObj [("owner", VStr "octocat"); ("repo", VStr "Hello-World");
                ("query", VStr "addClass")])
         (Some (rejecting 403 "API rate limit exceeded"))) =
    Return (VObj [("error", VStr "Rate limit exceeded or insufficient permissions")]).
Proof.
  split.
  - refine (proj1 (C3_upstream_404_and_403 (host := stub_host) Tget_commits _
                     (rejecting 404 "Not Found") repos_listCommits
                     (VObj [("owner", VStr "octocat"); ("repo", VStr "Hello-World");
                            ("sha", VStr "main"); ("per_page", VNum 30)])
                     _ _ eq_refl) eq_refl).
    vm_compute. left. reflexivity.
  - refine (proj2 (C3_upstream_404_and_403 (host := stub_host) Tsearch_code _
                     (rejecting 403 "API rate limit exceeded") search_code_
                     (VObj [("q", VStr "addClass repo:octocat/Hello-World");
                            ("per_page", VNum 30)])
                     _ _ eq_refl) eq_refl).
    vm_compute. left. reflexivity.
Defined.

(** C4.  Whatever the adapter and its arguments, when a request it made
    was rejected with a status that is neither 404 nor 403 (or with none),
    its result is the upstream error: the [error] text is the fixed prefix
    "GitHub API error: " followed by the rejection's message, unchanged. *)
Theorem C4_upstream_other_message {host : Host} t args client method params e :
  In (Requested method params) (snd (adapter t args (Some client))) ->
  client method params = Throw e ->
  status e <> Some 404%Z ->
  status e <> Some 403%Z ->
  fst (adapter t args (Some client)) =
  Return (VObj [("error", VStr ("GitHub API error: " ++ message e))]).
Proof.
  intros Hin Hthrow H404 H403.
  rewrite (adapter_upstream_error t args client method params e Hin Hthrow).
  unfold handleGitHubError.
  destruct (status e) as [code |]; [| reflexivity].
  destruct (Z.eq_dec code 404) as [-> | ?]; [congruence |].
  destruct (Z.eq_dec code 403) as [-> | ?]; [congruence |].
  destruct code as [| p | p]; try reflexivity.
  repeat (destruct p as [p | p |]; try reflexivity); congruence.
Qed.

Lemma C4_upstream_other_message_witness :
  fst (adapter (host := stub_host) Tget_repository_info
         (VObj [("owner", VStr "octocat"); ("repo", VStr "Hello-World")])
         (Some (rejecting 502 "Bad Gateway"))) =
  Return (VObj [("error", VStr "GitHub API error: Bad Gateway")]).
Proof.
  refine (C4_upstream_other_message (host := stub_host) Tget_repository_info _
            (rejecting 502 "Bad Gateway") repos_get
            (VObj [("owner", VStr "octocat"); ("repo", VStr "Hello-World")])
            _ _ eq_refl _ _).
  - vm_compute. left. reflexivity.
  - discriminate.
  - discriminate.
Defined.

(** C5.  Over any table of implementations, when the implementation found
    under the tool name throws while the route runs it, the route catches
    the exception and answers 500 with the exception's message in the
    [error] field. *)
Theorem C5_adapter_exception_500 {host : Host} impls toolName impl reqBody client e tr :
  nullish reqBody = false ->
  impls toolName = Some impl ->
  impl (field reqBody "arguments") (Some client) = (Throw e, tr) ->
  post_tools_with impls toolName reqBody (Some client) =
  (Return (json 500 (VObj [("error", VStr (message e))])),
   Invoked toolName (field reqBody "arguments") :: tr).
Proof.
  intros Hbody Himpl Hthrow.
  rewrite run_post_tools_with by assumption.
  rewrite Himpl. cbn zeta. rewrite Hthrow. reflexivity.
Qed.

Lemma C5_adapter_exception_500_witness :
  post_tools_with (host := stub_host) faulty_table "get_commits" sample_body
    (Some (answering (VArr []))) =
    (Return (json 500 (VObj [("error", VStr "commit.commit is undefined")])),
     [Invoked "get_commits" sample_args]) /\
  post_tools (host := stub_host) "__proto__" sample_body (Some (answering (VArr []))) =
    (Return (json 500
               (VObj [("error", VStr "toolImplementations[toolName] is not a function")])),
     [Invoked "__proto__" sample_args]).
Proof.
  split.
  - exact (C5_adapter_exception_500 (host := stub_host) faulty_table "get_commits"
             (fun _ => throw (TypeError "commit.commit is undefined"))
             sample_body (answering (VArr []))
             (TypeError "commit.commit is undefined") []
             eq_refl eq_refl eq_refl).
  - exact (C5_adapter_exception_500 (host := stub_host)
             (toolImplementations (host := stub_host)) "__proto__"
             (fun args => lift (Object_prototype_call "__proto__" args))
             sample_body (answering (VArr []))
             (TypeError "toolImplementations[toolName] is not a function") []
             eq_refl eq_refl eq_refl).
Defined.

(** C6.  When the arguments are there and the payload of the answer to the
    [repos.getContent] request is a directory, [get_file_contents] returns
    exactly [{error: "Path is not a file"}] and that request is the only
    one it made. *)
Theorem C6_directory_is_not_a_file {host : Host} args client response :
  nullish args = false ->
  let params :=
    VObj [("owner", field args "owner"); ("repo", field args "repo");
          ("path", field args "path");
          ("ref", or_else (field args "ref") (VStr "main"))] in
  client repos_getContent params = Return response ->
  is_directory (field response "data") = true ->
  get_file_contents args (Some client) =
  (Return (VObj [("error", VStr "Path is not a file")]),
   [Requested repos_getContent params]).
Proof.
  intros Hargs params Hclient Hdir.
  destruct (is_directory_not_file _ Hdir) as [Hdata Htype].
  pose proof (field_present _ _ Hdata) as Hresponse.
  unfold get_file_contents.
  rewrite run_try_catch, run_bind_rest.
  rewrite !run_bind_get by assumption.
  fold params. rewrite run_bind_request, Hclient.
  rewrite run_bind_destructure by assumption.
  rewrite run_bind_get by assumption.
  rewrite Htype. reflexivity.
Qed.

Lemma C6_directory_is_not_a_file_witness :
  get_file_contents (host := stub_host)
    (VObj [("owner", VStr "octocat"); ("repo", VStr "Hello-World"); ("path", VStr "src")])
    (Some (answering (VArr [VObj [("type", VStr "file"); ("name", VStr "a.js")]]))) =
  (Return (VObj [("error", VStr "Path is not a file")]),
   [Requested repos_getContent
      (VObj [("owner", VStr "octocat"); ("repo", VStr "Hello-World");
             ("path", VStr "src"); ("ref", VStr "main")])]).
Proof.
  apply (C6_directory_is_not_a_file (host := stub_host)
           (VObj [("owner", VStr "octocat"); ("repo", VStr "Hello-World");
                  ("path", VStr "src")])
           (answering (VArr [VObj [("type", VStr "file"); ("name", VStr "a.js")]]))
           (VObj [("status", VNum 200);
                  ("data", VArr [VObj [("type", VStr "file"); ("name", VStr "a.js")]])]));
    reflexivity.
Defined.

(** C7.  When the arguments are there and the payload of the answer is a
    file whose [content] is the base64 encoding of [bytes], possibly broken
    into lines, [get_file_contents] returns [name], [path], [size] and
    [sha] of the payload and, as [content], the UTF-8 text of [bytes]:
    well-formed UTF-8 comes out as the text it encodes. *)
Theorem C7_file_contents_decoded {host : Host} args client response encoded bytes :
  nullish args = false ->
  let params :=
    VObj [("owner", field args "owner"); ("repo", field args "repo");
          ("path", field args "path");
          ("ref", or_else (field args "ref") (VStr "main"))] in
  let data := field response "data" in
  client repos_getContent params = Return response ->
  field data "type" = VStr "file" ->
  field data "content" = VStr encoded ->
  without_line_breaks encoded = rfc4648_encode bytes ->
  get_file_contents args (Some client) =
    (Return (VObj [("name", field data "name"); ("path", field data "path");
                   ("size", field data "size");
                   ("content", VStr (toString_utf8 bytes));
                   ("sha", field data "sha")]),
     [Requested repos_getContent params]) /\
  (well_formed_utf8 bytes = true ->
   toString_utf8 bytes = string_of_list_ascii bytes).
Proof.
  intros Hargs params data Hclient Htype Hcontent Hencoded.
  split; [| apply toString_utf8_well_formed].
  pose proof (field_string_present _ _ _ Htype) as Hdata.
  pose proof (field_present _ _ Hdata) as Hresponse.
  destruct (base64_decode_line_breaks _ _ Hencoded) as [H7 Hdecode].
  unfold get_file_contents.
  rewrite run_try_catch, run_bind_rest.
  rewrite !run_bind_get by assumption.
  fold params. rewrite run_bind_request, Hclient.
  rewrite run_bind_destructure by assumption. fold data.
  rewrite run_bind_get by assumption.
  rewrite Htype. cbn [is_string]. cbn match.
  replace ("file" =? "file")%string with true by reflexivity.
  rewrite run_bind_get, Hcontent by assumption.
  cbn [Buffer_from_base64]. rewrite H7, run_bind_ret, Hdecode.
  rewrite !run_bind_get by assumption.
  reflexivity.
Qed.

Lemma C7_file_contents_decoded_witness :
  get_file_contents (host := stub_host)
    (VObj [("owner", VStr "octocat"); ("repo", VStr "Hello-World");
           ("path", VStr "README")])
    (Some (answering
             (VObj [("type", VStr "file"); ("encoding", VStr "base64");
                    ("size", VNum 5); ("name", VStr "README");
                    ("path", VStr "README"); ("content", VStr "aGVsbG8=");
                    ("sha", VStr "b6fc4c620b67d95f953a5c1c1230aaab5db5a1b0")]))) =
    (Return (VObj [("name", VStr "README"); ("path", VStr "README");
                   ("size", VNum 5); ("content", VStr "hello");
                   ("sha", VStr "b6fc4c620b67d95f953a5c1c1230aaab5db5a1b0")]),
     [Requested repos_getContent
        (VObj [("owner", VStr "octocat"); ("repo", VStr "Hello-World");
               ("path", VStr "README"); ("ref", VStr "main")])]) /\
  (well_formed_utf8 (list_ascii_of_string "hello") = true ->
   toString_utf8 (list_ascii_of_string "hello") = "hello").
Proof.
  apply (C7_file_contents_decoded (host := stub_host)
           (VObj [("owner", VStr "octocat"); ("repo", VStr "Hello-World");
                  ("path", VStr "README")])
           (answering
              (VObj [("type", VStr "file"); ("encoding", VStr "base64");
                     ("size", VNum 5); ("name", VStr "README");
                     ("path", VStr "README"); ("content", VStr "aGVsbG8=");
                     ("sha", VStr "b6fc4c620b67d95f953a5c1c1230aaab5db5a1b0")]))
           (VObj [("status", VNum 200);
                  ("data",
                   VObj [("type", VStr "file"); ("encoding", VStr "base64");
                         ("size", VNum 5); ("name", VStr "README");
                         ("path", VStr "README"); ("content", VStr "aGVsbG8=");
                         ("sha", VStr "b6fc4c620b67d95f953a5c1c1230aaab5db5a1b0")])])
           "aGVsbG8=" (list_ascii_of_string "hello"));
    reflexivity.
Defined.

(** C8.  For arguments whose [query], [owner] and [repo] are the strings
    [q], [owner] and [repo], [search_files] and [search_code] each make one
    request, [search.code], with [q] followed by " repo:<owner>/<repo>" as
    the query and 30 as the page size; and whatever the arguments are, a
    request either of them makes is a [search.code] request with page
    size 30. *)
Theorem C8_search_query_scoped {host : Host} args client :
  (forall q owner repo,
      field args "query" = VStr q ->
      field args "owner" = VStr owner ->
      field args "repo" = VStr repo ->
      let params :=
        VObj [("q", VStr (q ++ " repo:" ++ owner ++ "/" ++ repo));
              ("per_page", VNum 30)] in
      snd (search_files args (Some client)) = [Requested search_code_ params] /\
      snd (search_code args (Some client)) = [Requested search_code_ params]) /\
  (forall method params,
      In (Requested method params) (snd (search_files args (Some client))) \/
      In (Requested method params) (snd (search_code args (Some client))) ->
      method = search_code_ /\ field params "per_page" = VNum 30).
Proof.
  split.
  - intros q owner repo Hq Ho Hr params. split.
    + exact (search_files_request args client q owner repo Hq Ho Hr).
    + exact (search_code_request args client q owner repo Hq Ho Hr).
  - intros method params [Hin | Hin].
    + destruct (search_files_page_size args client method params Hin)
        as (q & -> & ->).
      split; reflexivity.
    + destruct (search_code_page_size args client method params Hin)
        as (q & -> & ->).
      split; reflexivity.
Qed.

Lemma C8_search_query_scoped_witness :
  snd (search_files (host := stub_host)
         (VObj [("owner", VStr "octocat"); ("repo", VStr "Hello-World");
                ("query", VStr "filename:README"); ("per_page", VNum 100)])
         (Some (answering (VObj [("total_count", VNum 0); ("items", VArr [])])))) =
    [Requested search_code_
       (VObj [("q", VStr "filename:README repo:octocat/Hello-World");
              ("per_page", VNum 30)])] /\
  snd (search_code (host := stub_host)
         (VObj [("owner", VStr "octocat"); ("repo", VStr "Hello-World");
                ("query", VStr "filename:README"); ("per_page", VNum 100)])
         (Some (answering (VObj [("total_count", VNum 0); ("items", VArr [])])))) =
    [Requested search_code_
       (VObj [("q", VStr "filename:README repo:octocat/Hello-World");
              ("per_page", VNum 30)])].
Proof.
  exact (proj1 (C8_search_query_scoped (host := stub_host)
                  (VObj [("owner", VStr "octocat"); ("repo", VStr "Hello-World");
                         ("query", VStr "filename:README"); ("per_page", VNum 100)])
                  (answering (VObj [("total_count", VNum 0); ("items", VArr [])])))
           "filename:README" "octocat" "Hello-World" eq_refl eq_refl eq_refl).
Defined.

(** C9.  With arguments that hold neither [state] nor [per_page],
    [list_issues] makes its one request with state "open" and page size
    30; and when the payload of the answer is an array of issues, its
    result is the array of their summaries in the same order, the [labels]
    of a summary being the names of the issue's labels and its [assignees]
    the logins of the issue's assignees, in order. *)
Theorem C9_list_issues_defaults_and_shape {host : Host} args client :
  nullish args = false ->
  (field args "state" = VUndefined ->
   field args "per_page" = VUndefined ->
   snd (list_issues args (Some client)) =
   [Requested issues_listForRepo
      (VObj [("owner", field args "owner"); ("repo", field args "repo");
             ("state", VStr "open"); ("per_page", VNum 30)])]) /\
  (forall response issues,
      client issues_listForRepo
        (VObj [("owner", field args "owner"); ("repo", field args "repo");
               ("state", or_else (field args "state") (VStr "open"));
               ("per_page", or_else (field args "per_page") (VNum 30))]) =
        Return response ->
      field response "data" = VArr issues ->
      forallb well_formed_issue issues = true ->
      fst (list_issues args (Some client)) = Return (VArr (map issue_summary issues)) /\
      (forall issue,
          field (issue_summary issue) "labels" =
            VArr (map (fun label => field label "name")
                    (elements (field issue "labels"))) /\
          field (issue_summary issue) "assignees" =
            VArr (map (fun assignee => field assignee "login")
                    (elements (field issue "assignees"))))).
Proof.
  intros Hargs. split.
  - intros Hstate Hpage.
    rewrite (list_issues_request args client Hargs), Hstate, Hpage. reflexivity.
  - intros response issues Hclient Hdata Hwf. split.
    + exact (list_issues_reshape args client response issues Hargs Hclient Hdata Hwf).
    + intro issue. split; reflexivity.
Qed.

Lemma C9_list_issues_defaults_and_shape_witness :
  snd (list_issues (host := stub_host) sample_args
         (Some (answering (VArr [sample_issue])))) =
    [Requested issues_listForRepo
       (VObj [("owner", VStr "octocat"); ("repo", VStr "Hello-World");
              ("state", VStr "open"); ("per_page", VNum 30)])] /\
  fst (list_issues (host := stub_host) sample_args
         (Some (answering (VArr [sample_issue])))) =
    Return
      (VArr [VObj [("number", VNum 1347); ("title", VStr "Found a bug");
                   ("body", VStr "I'm having a problem with this.");
                   ("state", VStr "open"); ("author", VStr "octocat");
                   ("created_at", VStr "2011-04-22T13:33:48Z");
                   ("updated_at", VStr "2011-04-22T13:33:48Z");
                   ("labels", VArr [VStr "bug"; VStr "ui"]);
                   ("assignees", VArr [VStr "hubot"])]]).
Proof.
  destruct (C9_list_issues_defaults_and_shape (host := stub_host) sample_args
              (answering (VArr [sample_issue])) eq_refl) as [Hrequest Hshape].
  split.
  - exact (Hrequest eq_refl eq_refl).
  - exact (proj1 (Hshape (VObj [("status", VNum 200); ("data", VArr [sample_issue])])
                    [sample_issue] eq_refl eq_refl eq_refl)).
Defined.

(** C10.  For each of the six adapters and any request with a body, the
    adapter returns a result instead of throwing, and the route answers
    200 with that result as the body; when a request of the adapter was
    rejected upstream, the body is what [handleGitHubError] makes of the
    rejection.  The 500 branch of the route is not taken. *)
Theorem C10_adapter_failures_answer_200 {host : Host} t reqBody client :
  nullish reqBody = false ->
  let args := field reqBody "arguments" in
  exists result,
    fst (adapter t args (Some client)) = Return result /\
    post_tools (tool_name t) reqBody (Some client) =
      (Return (json 200 result),
       Invoked (tool_name t) args :: snd (adapter t args (Some client))) /\
    (forall method params e,
        In (Requested method params) (snd (adapter t args (Some client))) ->
        client method params = Throw e ->
        result = handleGitHubError e).
Proof.
  intros Hbody args.
  destruct (adapter_returns t args (Some client)) as [result Hresult].
  exists result. split; [exact Hresult |]. split.
  - unfold post_tools. rewrite run_post_tools_with by assumption.
    rewrite (toolImplementations_own _ _ (own_property_tool_name t)).
    fold args. cbn zeta.
    destruct (adapter t args (Some client)) as [r tr]. cbn in *.
    subst r. reflexivity.
  - intros method params e Hin Hthrow.
    pose proof (adapter_upstream_error t args client method params e Hin Hthrow) as H.
    rewrite Hresult in H. injection H as ->. reflexivity.
Qed.

Lemma C10_adapter_failures_answer_200_witness :
  exists result,
    post_tools (host := stub_host) "get_repository_info" sample_body
      (Some (rejecting 404 "Not Found")) =
      (Return (json 200 result),
       [Invoked "get_repository_info" sample_args;
        Requested repos_get sample_args]) /\
    result = VObj [("error", VStr "Resource not found")].
Proof.
  destruct (C10_adapter_failures_answer_200 (host := stub_host)
              Tget_repository_info sample_body (rejecting 404 "Not Found") eq_refl)
    as (result & Hresult & Hroute & _).
  exists result. split.
  - exact Hroute.
  - vm_compute in Hresult. injection Hresult as <-. reflexivity.
Defined.

(** ** Further properties of the adapters and the routes *)

Lemma pure_if {A} (b : bool) (m1 m2 : M A) :
  pure m1 -> pure m2 -> pure (if b then m1 else m2).
Proof. destruct b; auto. Qed.

#[local] Hint Resolve pure_get pure_destructure pure_ToString
  pure_Buffer_from_base64 pure_js_map pure_search_query pure_if : js_pure.

Lemma run_bind_get_nullish {host : Host} {B} v k (f : value -> M B) octokit :
  nullish v = true ->
  bind (get v k) f octokit = (Throw (TypeError (cannot_read v k)), []).
Proof. intros H. unfold get. rewrite H. reflexivity. Qed.

Lemma run_bind_ext {A B} (m : M A) (f g : A -> M B) octokit :
  (forall a, f a octokit = g a octokit) -> bind m f octokit = bind m g octokit.
Proof.
  intros H. rewrite !run_bind.
  destruct (m octokit) as [[a | e] t]; [rewrite H |]; reflexivity.
Qed.

(** *** At most one request *)

Lemma at_most_one_pure {A} method (m : M A) :
  pure m -> at_most_one_request method m.
Proof. intros Hm octokit. left. apply Hm. Qed.

Lemma at_most_one_bind_pure {A B} method (m : M A) (f : A -> M B) :
  pure m -> (forall a, at_most_one_request method (f a)) ->
  at_most_one_request method (bind m f).
Proof.
  intros Hm Hf octokit. rewrite run_bind.
  specialize (Hm octokit).
  destruct (m octokit) as [[a | e] t]; cbn in *; subst; [apply Hf | left; reflexivity].
Qed.

Lemma at_most_one_request_then {B} client method params (tail : value -> M B) :
  (forall response, pure (tail response)) ->
  at_most_one_request method (bind (request client method params) tail).
Proof.
  intros Htail octokit. right. exists params. rewrite run_bind_request.
  destruct (client method params) as [response | e]; cbn; [| reflexivity].
  rewrite (Htail response octokit). reflexivity.
Qed.

Lemma at_most_one_rest {host : Host} {B} method (f : (value -> M value) -> M B) :
  (forall client, at_most_one_request method (f (request client method))) ->
  at_most_one_request method (bind (octokit_rest method) f).
Proof.
  intros Hf [client |].
  - rewrite run_bind_rest. apply Hf.
  - left. reflexivity.
Qed.

Lemma at_most_one_try_catch {A} method (body : M A) (h : Error -> A) :
  at_most_one_request method body ->
  at_most_one_request method (try_catch body (fun error => ret (h error))).
Proof.
  intros Hbody octokit. rewrite run_try_catch.
  specialize (Hbody octokit).
  destruct (body octokit) as [[a | e] t]; exact Hbody.
Qed.

Ltac one_request_steps :=
  repeat first
    [ apply at_most_one_rest; intro
    | apply at_most_one_request_then; intro; solve [auto 30 with js_pure]
    | apply at_most_one_bind_pure; [solve [auto 30 with js_pure] | intro] ].

Lemma adapter_trace_shape {host : Host} t args :
  at_most_one_request (endpoint_of t) (adapter t args).
Proof.
  destruct t; cbn [adapter endpoint_of];
    [ unfold get_repository_info | unfold list_issues | unfold get_file_contents
    | unfold search_files | unfold get_commits | unfold search_code ];
    apply at_most_one_try_catch; one_request_steps.
Qed.

(** X1.  Whatever its arguments and whether or not a client is
    configured, an adapter makes no upstream request or exactly one, and
    that one goes to the REST method of the adapter. *)
Theorem adapter_at_most_one_request {host : Host} t args octokit :
  snd (adapter t args octokit) = [] \/
  exists params, snd (adapter t args octokit) = [Requested (endpoint_of t) params].
Proof. exact (adapter_trace_shape t args octokit). Qed.

Lemma toolImplementations_none {host : Host} toolName :
  toolImplementations toolName = None <->
  own_property toolName = None /\ ~ In toolName Object_prototype_keys.
Proof.
  unfold toolImplementations.
  destruct (own_property toolName) as [t |].
  - split; [discriminate | intros [H _]; discriminate].
  - destruct (existsb (String.eqb toolName) Object_prototype_keys) eqn:Hex.
    + split; [discriminate |]. intros [_ Hnot]. exfalso. apply Hnot.
      apply existsb_exists in Hex as (k & Hin & Heq).
      apply String.eqb_eq in Heq. subst k. exact Hin.
    + split; [| reflexivity]. intros _. split; [reflexivity |].
      intros Hin.
      assert (existsb (String.eqb toolName) Object_prototype_keys = true) as Htrue
        by (apply existsb_exists; exists toolName; split;
            [exact Hin | apply String.eqb_refl]).
      congruence.
Qed.

Lemma toolImplementations_trace {host : Host} toolName impl args octokit :
  toolImplementations toolName = Some impl ->
  List.length (filter is_request (snd (impl args octokit))) <= 1.
Proof.
  unfold toolImplementations.
  destruct (own_property toolName) as [t |].
  - intros H. injection H as <-.
    destruct (adapter_trace_shape t args octokit) as [-> | (params & ->)];
      cbn; lia.
  - destruct (existsb (String.eqb toolName) Object_prototype_keys);
      [| discriminate].
    intros H. injection H as <-. cbn. lia.
Qed.

(** X2.  Whatever the tool name, the body and the credential, handling one
    [POST /tools/:toolName] makes at most one upstream request. *)
Theorem post_tools_at_most_one_request {host : Host} toolName reqBody octokit :
  List.length (filter is_request (snd (post_tools toolName reqBody octokit))) <= 1.
Proof.
  destruct (nullish reqBody) eqn:Hbody.
  - unfold post_tools, post_tools_with, destructure. rewrite Hbody.
    rewrite (run_bind_throw _ _ _ _ _ eq_refl). cbn. lia.
  - unfold post_tools. rewrite run_post_tools_with by assumption.
    destruct (toolImplementations toolName) as [impl |] eqn:Himpl; [| cbn; lia].
    destruct octokit as [client |]; [| cbn; lia].
    pose proof (toolImplementations_trace toolName impl
                  (field reqBody "arguments") (Some client) Himpl) as Htr.
    cbn zeta.
    destruct (impl (field reqBody "arguments") (Some client)) as [[result | e] tr];
      cbn in *; exact Htr.
Qed.

(** X3.  A request with a body is always answered, with 404, 500 or 200:
    404 exactly when the tool name is neither one of the six tools nor a
    property inherited from [Object.prototype]; and without a credential
    the answer is never 200 and nothing is invoked or requested. *)
Theorem post_tools_answers {host : Host} toolName reqBody octokit :
  nullish reqBody = false ->
  exists response tr,
    post_tools toolName reqBody octokit = (Return response, tr) /\
    (statusCode response = 404%Z <->
     own_property toolName = None /\ ~ In toolName Object_prototype_keys) /\
    (statusCode response = 200%Z \/ statusCode response = 404%Z \/
     statusCode response = 500%Z) /\
    (octokit = None -> statusCode response <> 200%Z /\ tr = []).
Proof.
  intros Hbody. unfold post_tools. rewrite run_post_tools_with by assumption.
  pose proof (toolImplementations_none toolName) as Hnone.
  destruct (toolImplementations toolName) as [impl |].
  - assert (Hnot : ~ (own_property toolName = None /\
                      ~ In toolName Object_prototype_keys))
      by (intros H; apply Hnone in H; discriminate).
    destruct octokit as [client |].
    + cbn zeta.
      destruct (impl (field reqBody "arguments") (Some client)) as [[result | e] tr];
        do 2 eexists; (split; [reflexivity |]); cbn;
        (split; [split; [discriminate | intros H; contradiction] |]);
        (split; [auto | discriminate]).
    + do 2 eexists. split; [reflexivity |]. cbn.
      split; [split; [discriminate | intros H; contradiction] |].
      split; [auto |]. intros _. split; [discriminate | reflexivity].
  - do 2 eexists. split; [reflexivity |]. cbn.
    split; [split; [intros _; apply Hnone; reflexivity | reflexivity] |].
    split; [auto |]. intros _. split; [discriminate | reflexivity].
Qed.

Lemma post_tools_answers_witness :
  exists response tr,
    post_tools (host := stub_host) "delete_repository" sample_body None =
      (Return response, tr) /\
    statusCode response = 404%Z /\ tr = [].
Proof.
  destruct (post_tools_answers (host := stub_host) "delete_repository" sample_body
              None eq_refl) as (response & tr & Hrun & H404 & _ & Hnone).
  exists response, tr. split; [exact Hrun |]. split.
  - apply H404. split; [reflexivity |].
    cbn. intros H.
    repeat (destruct H as [H | H]; [discriminate |]). exact H.
  - exact (proj2 (Hnone eq_refl)).
Defined.

(** *** Arguments that are missing or malformed *)

Lemma handleGitHubError_TypeError {host : Host} msg :
  handleGitHubError (TypeError msg) = error_body ("GitHub API error: " ++ msg).
Proof. reflexivity. Qed.

Lemma search_query_nullish {host : Host} args octokit :
  nullish args = true ->
  search_query args octokit = (Throw (TypeError (cannot_read args "query")), []).
Proof. intros H. unfold search_query. apply run_bind_get_nullish. exact H. Qed.

Lemma adapter_missing_arguments {host : Host} t args client :
  nullish args = true ->
  adapter t args (Some client) =
  (Return (error_body ("GitHub API error: " ++ cannot_read args (first_read t))), []).
Proof.
  intros Hargs.
  destruct t; cbn [adapter first_read];
    [ unfold get_repository_info | unfold list_issues | unfold get_file_contents
    | unfold search_files | unfold get_commits | unfold search_code ];
    rewrite run_try_catch;
    first
      [ rewrite run_bind_rest, run_bind_get_nullish by assumption; reflexivity
      | rewrite (run_bind_throw _ _ _ _ _ (search_query_nullish args _ Hargs));
        reflexivity ].
Qed.

(** X4.  A request whose body holds no [arguments] (or [null]) reaches the
    adapter of a registered tool, which makes no upstream request: the
    answer is 200 with the engine's complaint about the first property the
    adapter reads, wrapped as a GitHub API error. *)
Theorem post_tools_missing_arguments {host : Host} t reqBody client :
  nullish reqBody = false ->
  nullish (field reqBody "arguments") = true ->
  post_tools (tool_name t) reqBody (Some client) =
  (Return
     (json 200
        (VObj [("error",
                VStr ("GitHub API error: "
                        ++ cannot_read (field reqBody "arguments") (first_read t)))])),
   [Invoked (tool_name t) (field reqBody "arguments")]).
Proof.
  intros Hbody Hargs. unfold post_tools.
  rewrite run_post_tools_with by assumption.
  rewrite (toolImplementations_own _ _ (own_property_tool_name t)).
  cbn zeta. rewrite (adapter_missing_arguments t _ client Hargs). reflexivity.
Qed.

Lemma post_tools_missing_arguments_witness :
  post_tools (host := stub_host) "get_commits" (VObj []) (Some (answering (VArr []))) =
  (Return
     (json 200
        (VObj [("error",
                VStr "GitHub API error: Cannot read properties of undefined (reading 'owner')")])),
   [Invoked "get_commits" VUndefined]).
Proof.
  exact (post_tools_missing_arguments (host := stub_host) Tget_commits (VObj [])
           (answering (VArr [])) eq_refl eq_refl).
Defined.

Ltac one_request_trace :=
  match goal with
  | |- context [bind (request ?client ?method ?params) ?tail] =>
      apply (one_request client method params tail handleGitHubError)
  end;
  intro; auto 30 with js_pure.

Lemma get_repository_info_request {host : Host} args client :
  nullish args = false ->
  snd (get_repository_info args (Some client)) =
  [Requested repos_get
     (VObj [("owner", field args "owner"); ("repo", field args "repo")])].
Proof.
  intros Hargs. unfold get_repository_info, try_catch.
  rewrite run_bind_rest, !run_bind_get by assumption.
  one_request_trace.
Qed.

Lemma get_file_contents_request {host : Host} args client :
  nullish args = false ->
  snd (get_file_contents args (Some client)) =
  [Requested repos_getContent
     (VObj [("owner", field args "owner"); ("repo", field args "repo");
            ("path", field args "path");
            ("ref", or_else (field args "ref") (VStr "main"))])].
Proof.
  intros Hargs. unfold get_file_contents, try_catch.
  rewrite run_bind_rest, !run_bind_get by assumption.
  one_request_trace.
Qed.

Lemma get_commits_request {host : Host} args client :
  nullish args = false ->
  snd (get_commits args (Some client)) =
  [Requested repos_listCommits
     (VObj [("owner", field args "owner"); ("repo", field args "repo");
            ("sha", or_else (field args "sha") (VStr "main"));
            ("per_page", or_else (field args "per_page") (VNum 30))])].
Proof.
  intros Hargs. unfold get_commits, try_catch.
  rewrite run_bind_rest, !run_bind_get by assumption.
  one_request_trace.
Qed.

(** X5.  Given an arguments object, each of the four repository adapters
    makes exactly one request and validates nothing: [owner], [repo] and
    [path] are sent as they are, [undefined] when missing, and [state],
    [per_page], [ref] and [sha] are sent unchanged when truthy and replaced
    by "open", 30, "main" and "main" when missing or falsy. *)
Theorem repository_adapters_request {host : Host} args client :
  nullish args = false ->
  snd (get_repository_info args (Some client)) =
    [Requested repos_get
       (VObj [("owner", field args "owner"); ("repo", field args "repo")])] /\
  snd (list_issues args (Some client)) =
    [Requested issues_listForRepo
       (VObj [("owner", field args "owner"); ("repo", field args "repo");
              ("state",
               if truthy (field args "state") then field args "state"
               else VStr "open");
              ("per_page",
               if truthy (field args "per_page") then field args "per_page"
               else VNum 30)])] /\
  snd (get_file_contents args (Some client)) =
    [Requested repos_getContent
       (VObj [("owner", field args "owner"); ("repo", field args "repo");
              ("path", field args "path");
              ("ref",
               if truthy (field args "ref") then field args "ref"
               else VStr "main")])] /\
  snd (get_commits args (Some client)) =
    [Requested repos_listCommits
       (VObj [("owner", field args "owner"); ("repo", field args "repo");
              ("sha",
               if truthy (field args "sha") then field args "sha"
               else VStr "main");
              ("per_page",
               if truthy (field args "per_page") then field args "per_page"
               else VNum 30)])].
Proof.
  intros Hargs. repeat split.
  - exact (get_repository_info_request args client Hargs).
  - exact (list_issues_request args client Hargs).
  - exact (get_file_contents_request args client Hargs).
  - exact (get_commits_request args client Hargs).
Qed.

Lemma repository_adapters_request_witness :
  snd (get_commits (host := stub_host)
         (VObj [("repo", VStr "Hello-World"); ("sha", VStr EmptyString);
                ("per_page", VNum 0)])
         (Some (rejecting 404 "Not Found"))) =
  [Requested repos_listCommits
     (VObj [("owner", VUndefined); ("repo", VStr "Hello-World");
            ("sha", VStr "main"); ("per_page", VNum 30)])].
Proof.
  exact (proj2 (proj2 (proj2
           (repository_adapters_request (host := stub_host)
              (VObj [("repo", VStr "Hello-World"); ("sha", VStr EmptyString);
                     ("per_page", VNum 0)])
              (rejecting 404 "Not Found") eq_refl)))).
Defined.

(** *** The search adapters *)

Lemma ToString_primitive {host : Host} v text octokit :
  primitive_text v = Some text -> ToString v octokit = (Return text, []).
Proof.
  destruct v as [| | [|] | | | |]; cbn; intros H; try discriminate;
    injection H as <-; reflexivity.
Qed.

Lemma search_query_primitives {host : Host} args q owner repo octokit :
  nullish args = false ->
  primitive_text (field args "query") = Some q ->
  primitive_text (field args "owner") = Some owner ->
  primitive_text (field args "repo") = Some repo ->
  search_query args octokit =
  (Return (q ++ " repo:" ++ owner ++ "/" ++ repo), []).
Proof.
  intros Hargs Hq Ho Hr. unfold search_query.
  rewrite run_bind_get by assumption.
  rewrite (run_bind_return _ _ _ _ (ToString_primitive _ _ octokit Hq)).
  rewrite run_bind_get by assumption.
  rewrite (run_bind_return _ _ _ _ (ToString_primitive _ _ octokit Ho)).
  rewrite run_bind_get by assumption.
  rewrite (run_bind_return _ _ _ _ (ToString_primitive _ _ octokit Hr)).
  reflexivity.
Qed.

(** The trace of a search adapter is decided by its query text. *)
Lemma search_trace {host : Host} args (tail : value -> M value) octokit :
  (forall response, pure (tail response)) ->
  snd (try_catch
         (query <- search_query args ;;
          code <- octokit_rest search_code_ ;;
          response <- code (VObj [("q", VStr query); ("per_page", VNum 30)]) ;;
          tail response)
         (fun error => ret (handleGitHubError error)) octokit) =
  match fst (search_query args octokit), octokit with
  | Return query, Some _ =>
      [Requested search_code_ (VObj [("q", VStr query); ("per_page", VNum 30)])]
  | _, _ => []
  end.
Proof.
  intros Htail.
  pose proof (pure_run (search_query args) octokit (pure_search_query args))
    as Hquery.
  destruct (fst (search_query args octokit)) as [q | e].
  - destruct octokit as [client |].
    + unfold try_catch.
      rewrite (run_bind_return _ _ _ _ Hquery), run_bind_rest.
      match goal with
      | |- context [bind (request client ?m ?p) ?t] =>
          exact (one_request client m p t handleGitHubError Htail)
      end.
    + unfold try_catch.
      rewrite (run_bind_return _ _ _ _ Hquery).
      rewrite (run_bind_throw (octokit_rest search_code_) _ None _ [] eq_refl).
      reflexivity.
  - unfold try_catch.
    rewrite (run_bind_throw _ _ _ _ _ Hquery). destruct octokit; reflexivity.
Qed.

Lemma search_files_trace {host : Host} args octokit :
  snd (search_files args octokit) =
  match fst (search_query args octokit), octokit with
  | Return query, Some _ =>
      [Requested search_code_ (VObj [("q", VStr query); ("per_page", VNum 30)])]
  | _, _ => []
  end.
Proof.
  unfold search_files. apply search_trace. intro. auto 30 with js_pure.
Qed.

Lemma search_code_trace {host : Host} args octokit :
  snd (search_code args octokit) =
  match fst (search_query args octokit), octokit with
  | Return query, Some _ =>
      [Requested search_code_ (VObj [("q", VStr query); ("per_page", VNum 30)])]
  | _, _ => []
  end.
Proof.
  unfold search_code. apply search_trace. intro. auto 30 with js_pure.
Qed.

(** X6.  In the query of a search, a [query], [owner] or [repo] that is
    missing is not rejected but spelled "undefined", [null] is spelled
    "null" and a boolean "true" or "false": the one request carries the
    texts joined as [<query> repo:<owner>/<repo>]. *)
Theorem search_query_of_primitives {host : Host} args client q owner repo :
  nullish args = false ->
  primitive_text (field args "query") = Some q ->
  primitive_text (field args "owner") = Some owner ->
  primitive_text (field args "repo") = Some repo ->
  let params :=
    VObj [("q", VStr (q ++ " repo:" ++ owner ++ "/" ++ repo));
          ("per_page", VNum 30)] in
  snd (search_files args (Some client)) = [Requested search_code_ params] /\
  snd (search_code args (Some client)) = [Requested search_code_ params].
Proof.
  intros Hargs Hq Ho Hr params.
  rewrite search_files_trace, search_code_trace.
  rewrite (search_query_primitives args q owner repo (Some client) Hargs Hq Ho Hr).
  split; reflexivity.
Qed.

Lemma search_query_of_primitives_witness :
  snd (search_files (host := stub_host)
         (VObj [("query", VStr "addClass"); ("repo", VNull)])
         (Some (rejecting 422 "Validation Failed"))) =
    [Requested search_code_
       (VObj [("q", VStr "addClass repo:undefined/null"); ("per_page", VNum 30)])] /\
  snd (search_code (host := stub_host)
         (VObj [("query", VStr "addClass"); ("repo", VNull)])
         (Some (rejecting 422 "Validation Failed"))) =
    [Requested search_code_
       (VObj [("q", VStr "addClass repo:undefined/null"); ("per_page", VNum 30)])].
Proof.
  exact (search_query_of_primitives (host := stub_host)
           (VObj [("query", VStr "addClass"); ("repo", VNull)])
           (rejecting 422 "Validation Failed") "addClass" "undefined" "null"
           eq_refl eq_refl eq_refl eq_refl).
Defined.

(** X7.  [search_files] and [search_code] are the same upstream query:
    for any arguments and with or without a client, their traces are
    equal. *)
Theorem search_adapters_same_request {host : Host} args octokit :
  snd (search_files args octokit) = snd (search_code args octokit).
Proof.
  rewrite search_files_trace, search_code_trace. reflexivity.
Qed.

Lemma run_bind_cong {A B} (m1 m2 : M A) (f : A -> M B) octokit :
  m1 octokit = m2 octokit -> bind m1 f octokit = bind m2 f octokit.
Proof. intros H. rewrite !run_bind, H. reflexivity. Qed.

Lemma search_query_agree {host : Host} args1 args2 octokit :
  nullish args1 = false ->
  nullish args2 = false ->
  field args1 "query" = field args2 "query" ->
  field args1 "owner" = field args2 "owner" ->
  field args1 "repo" = field args2 "repo" ->
  search_query args1 octokit = search_query args2 octokit.
Proof.
  intros H1 H2 Hq Ho Hr. unfold search_query.
  rewrite (run_bind_get args1), (run_bind_get args2), Hq by assumption.
  apply run_bind_ext. intro q.
  rewrite (run_bind_get args1), (run_bind_get args2), Ho by assumption.
  apply run_bind_ext. intro o.
  rewrite (run_bind_get args1), (run_bind_get args2), Hr by assumption.
  reflexivity.
Qed.

(** X8.  A search reads nothing of its arguments but [query], [owner] and
    [repo]: two argument objects that agree on these three give the same
    result and the same trace, so the declared [path] parameter of
    [search_files] and any [per_page] have no effect. *)
Theorem search_reads_three_arguments {host : Host} args1 args2 octokit :
  nullish args1 = false ->
  nullish args2 = false ->
  field args1 "query" = field args2 "query" ->
  field args1 "owner" = field args2 "owner" ->
  field args1 "repo" = field args2 "repo" ->
  search_files args1 octokit = search_files args2 octokit /\
  search_code args1 octokit = search_code args2 octokit.
Proof.
  intros H1 H2 Hq Ho Hr.
  pose proof (search_query_agree args1 args2 octokit H1 H2 Hq Ho Hr) as Hsame.
  split.
  - unfold search_files, try_catch.
    rewrite (run_bind_cong _ _ _ _ Hsame). reflexivity.
  - unfold search_code, try_catch.
    rewrite (run_bind_cong _ _ _ _ Hsame). reflexivity.
Qed.

Lemma search_reads_three_arguments_witness :
  search_files (host := stub_host)
    (VObj [("owner", VStr "octocat"); ("repo", VStr "Hello-World");
           ("query", VStr "README"); ("path", VStr "docs")])
    (Some (answering (VObj [("total_count", VNum 0); ("items", VArr [])]))) =
  search_files (host := stub_host)
    (VObj [("owner", VStr "octocat"); ("repo", VStr "Hello-World");
           ("query", VStr "README")])
    (Some (answering (VObj [("total_count", VNum 0); ("items", VArr [])]))).
Proof.
  exact (proj1 (search_reads_three_arguments (host := stub_host)
                  (VObj [("owner", VStr "octocat"); ("repo", VStr "Hello-World");
                         ("query", VStr "README"); ("path", VStr "docs")])
                  (VObj [("owner", VStr "octocat"); ("repo", VStr "Hello-World");
                         ("query", VStr "README")])
                  (Some (answering (VObj [("total_count", VNum 0); ("items", VArr [])])))
                  eq_refl eq_refl eq_refl eq_refl eq_refl)).
Defined.

(** *** What a successful answer is turned into *)

(** X9.  Given an arguments object and an answer with a payload,
    [get_repository_info] returns exactly eleven fields of the payload,
    renaming [stargazers_count], [forks_count] and [open_issues_count] to
    [stars], [forks] and [open_issues]; a field the payload lacks is
    [undefined], and the one request carries [owner] and [repo]. *)
Theorem get_repository_info_summary {host : Host} args client response :
  nullish args = false ->
  let params := VObj [("owner", field args "owner"); ("repo", field args "repo")] in
  client repos_get params = Return response ->
  nullish (field response "data") = false ->
  get_repository_info args (Some client) =
  (Return
     (VObj [("name", field (field response "data") "name");
            ("full_name", field (field response "data") "full_name");
            ("description", field (field response "data") "description");
            ("language", field (field response "data") "language");
            ("stars", field (field response "data") "stargazers_count");
            ("forks", field (field response "data") "forks_count");
            ("open_issues", field (field response "data") "open_issues_count");
            ("created_at", field (field response "data") "created_at");
            ("updated_at", field (field response "data") "updated_at");
            ("clone_url", field (field response "data") "clone_url");
            ("default_branch", field (field response "data") "default_branch")]),
   [Requested repos_get params]).
Proof.
  intros Hargs params Hclient Hdata.
  pose proof (field_present _ _ Hdata) as Hresponse.
  unfold get_repository_info.
  rewrite run_try_catch, run_bind_rest, !run_bind_get by assumption.
  fold params. rewrite run_bind_request, Hclient.
  rewrite run_bind_destructure by assumption.
  rewrite !run_bind_get by assumption.
  reflexivity.
Qed.

Lemma get_repository_info_summary_witness :
  get_repository_info (host := stub_host) sample_args
    (Some (answering sample_repository)) =
  (Return
     (VObj [("name", VStr "Hello-World");
            ("full_name", VStr "octocat/Hello-World");
            ("description", VUndefined); ("language", VUndefined);
            ("stars", VNum 80); ("forks", VNum 9); ("open_issues", VUndefined);
            ("created_at", VUndefined); ("updated_at", VUndefined);
            ("clone_url", VUndefined); ("default_branch", VStr "master")]),
   [Requested repos_get sample_args]).
Proof.
  exact (get_repository_info_summary (host := stub_host) sample_args
           (answering sample_repository)
           (VObj [("status", VNum 200); ("data", sample_repository)])
           eq_refl eq_refl eq_refl).
Defined.

Ltac split_conjunction H :=
  repeat match type of H with
         | _ && _ = true => let H' := fresh H in apply andb_prop in H as [H H']
         end.

Ltac presence :=
  unfold present in *;
  repeat match goal with
         | H : negb _ = true |- _ => apply negb_true_iff in H
         end.

Lemma mapM_first_failure {A B} (f : A -> M B) (g : A -> B) (ok : A -> bool)
    good bad rest octokit e :
  (forall x, ok x = true -> f x octokit = (Return (g x), [])) ->
  forallb ok good = true ->
  f bad octokit = (Throw e, []) ->
  mapM f (good ++ bad :: rest)%list octokit = (Throw e, []).
Proof.
  intros Hf Hgood Hbad. induction good as [| x good IH].
  - cbn [app mapM]. apply run_bind_throw. exact Hbad.
  - cbn [forallb] in Hgood. apply andb_prop in Hgood as [Hx Hgood].
    cbn [app mapM].
    rewrite (run_bind_return _ _ _ _ (Hf x Hx)).
    apply run_bind_throw. exact (IH Hgood).
Qed.

(** X10.  Given an arguments object and an answer whose payload is an
    array of commits, each with git data, an author and a committer,
    [get_commits] returns the array of their summaries, in the same order
    and of the same length: [sha], the git [message], author and committer
    as name, email and date, and [html_url] as [url]. *)
Theorem get_commits_summaries {host : Host} args client response commits :
  nullish args = false ->
  let params :=
    VObj [("owner", field args "owner"); ("repo", field args "repo");
          ("sha", or_else (field args "sha") (VStr "main"));
          ("per_page", or_else (field args "per_page") (VNum 30))] in
  client repos_listCommits params = Return response ->
  field response "data" = VArr commits ->
  forallb well_formed_commit commits = true ->
  get_commits args (Some client) =
    (Return (VArr (map commit_summary commits)), [Requested repos_listCommits params]) /\
  List.length (map commit_summary commits) = List.length commits.
Proof.
  intros Hargs params Hclient Hdata Hwf. split; [| apply length_map].
  assert (Hresponse : nullish response = false)
    by (apply (field_present response "data"); rewrite Hdata; reflexivity).
  unfold get_commits.
  rewrite run_try_catch, run_bind_rest, !run_bind_get by assumption.
  fold params. rewrite run_bind_request, Hclient.
  rewrite run_bind_destructure, Hdata by assumption.
  cbn [js_map].
  match goal with
  | |- context [mapM ?f commits] =>
      rewrite (run_bind_return (mapM f commits) _ (Some client)
                 (map commit_summary commits))
  end; [reflexivity |].
  apply (mapM_pointwise _ commit_summary well_formed_commit); [| exact Hwf].
  intros commit Hcommit. unfold well_formed_commit in Hcommit.
  split_conjunction Hcommit. presence.
  rewrite !run_bind_get by assumption.
  reflexivity.
Qed.

Lemma get_commits_summaries_witness :
  get_commits (host := stub_host) sample_args
    (Some (answering (VArr [sample_commit; sample_commit]))) =
  (Return (VArr [commit_summary sample_commit; commit_summary sample_commit]),
   [Requested repos_listCommits
      (VObj [("owner", VStr "octocat"); ("repo", VStr "Hello-World");
             ("sha", VStr "main"); ("per_page", VNum 30)])]).
Proof.
  exact (proj1 (get_commits_summaries (host := stub_host) sample_args
                  (answering (VArr [sample_commit; sample_commit]))
                  (VObj [("status", VNum 200);
                         ("data", VArr [sample_commit; sample_commit])])
                  [sample_commit; sample_commit]
                  eq_refl eq_refl eq_refl eq_refl)).
Defined.

(** X11.  One commit whose git data has no author (it is [null] or
    missing) spoils the whole listing: when the commits before it are well
    formed, [get_commits] returns no summary at all but the engine's
    complaint about reading [name], as a GitHub API error. *)
Theorem get_commits_author_missing {host : Host} args client response good bad rest :
  nullish args = false ->
  client repos_listCommits
    (VObj [("owner", field args "owner"); ("repo", field args "repo");
           ("sha", or_else (field args "sha") (VStr "main"));
           ("per_page", or_else (field args "per_page") (VNum 30))]) =
    Return response ->
  field response "data" = VArr (good ++ bad :: rest)%list ->
  forallb well_formed_commit good = true ->
  nullish (field bad "commit") = false ->
  nullish (field (field bad "commit") "author") = true ->
  fst (get_commits args (Some client)) =
  Return
    (VObj [("error",
            VStr ("GitHub API error: "
                    ++ cannot_read (field (field bad "commit") "author") "name"))]).
Proof.
  intros Hargs Hclient Hdata Hgood Hinner Hauthor.
  pose proof (field_present _ _ Hinner) as Hbad.
  assert (Hresponse : nullish response = false)
    by (apply (field_present response "data"); rewrite Hdata; reflexivity).
  unfold get_commits.
  rewrite run_try_catch, run_bind_rest, !run_bind_get by assumption.
  rewrite run_bind_request, Hclient.
  rewrite run_bind_destructure, Hdata by assumption.
  cbn [js_map].
  match goal with
  | |- context [mapM ?f (good ++ bad :: rest)%list] =>
      rewrite (run_bind_throw (mapM f (good ++ bad :: rest)%list) _ (Some client)
                 (TypeError (cannot_read (field (field bad "commit") "author") "name"))
                 []
                 (mapM_first_failure f commit_summary well_formed_commit good bad rest
                    (Some client) _
                    ltac:(intros commit Hcommit; cbv beta; unfold well_formed_commit in Hcommit;
                          split_conjunction Hcommit; presence;
                          rewrite !run_bind_get by assumption; reflexivity)
                    Hgood
                    ltac:(cbv beta; rewrite !run_bind_get by assumption;
                          apply run_bind_get_nullish; assumption)))
  end.
  reflexivity.
Qed.

Lemma get_commits_author_missing_witness :
  fst (get_commits (host := stub_host) sample_args
         (Some (answering (VArr [sample_commit; authorless_commit; sample_commit])))) =
  Return
    (VObj [("error",
            VStr "GitHub API error: Cannot read properties of null (reading 'name')")]).
Proof.
  exact (get_commits_author_missing (host := stub_host) sample_args
           (answering (VArr [sample_commit; authorless_commit; sample_commit]))
           (VObj [("status", VNum 200);
                  ("data", VArr [sample_commit; authorless_commit; sample_commit])])
           [sample_commit] authorless_commit [sample_commit]
           eq_refl eq_refl eq_refl eq_refl eq_refl eq_refl).
Defined.

(** X12.  One issue without an author ([user] is [null] or missing)
    spoils the whole listing: when the issues before it are well formed,
    [list_issues] returns no summary at all but the engine's complaint
    about reading [login], as a GitHub API error. *)
Theorem list_issues_author_missing {host : Host} args client response good bad rest :
  nullish args = false ->
  client issues_listForRepo
    (VObj [("owner", field args "owner"); ("repo", field args "repo");
           ("state", or_else (field args "state") (VStr "open"));
           ("per_page", or_else (field args "per_page") (VNum 30))]) =
    Return response ->
  field response "data" = VArr (good ++ bad :: rest)%list ->
  forallb well_formed_issue good = true ->
  nullish bad = false ->
  nullish (field bad "user") = true ->
  fst (list_issues args (Some client)) =
  Return
    (VObj [("error",
            VStr ("GitHub API error: " ++ cannot_read (field bad "user") "login"))]).
Proof.
  intros Hargs Hclient Hdata Hgood Hbad Huser.
  assert (Hresponse : nullish response = false)
    by (apply (field_present response "data"); rewrite Hdata; reflexivity).
  unfold list_issues.
  rewrite run_try_catch, run_bind_rest, !run_bind_get by assumption.
  rewrite run_bind_request, Hclient.
  rewrite run_bind_destructure, Hdata by assumption.
  cbn [js_map].
  match goal with
  | |- context [mapM ?f (good ++ bad :: rest)%list] =>
      rewrite (run_bind_throw (mapM f (good ++ bad :: rest)%list) _ (Some client)
                 (TypeError (cannot_read (field bad "user") "login")) []
                 (mapM_first_failure f issue_summary well_formed_issue good bad rest
                    (Some client) _
                    ltac:(intros issue Hissue; cbv beta; unfold well_formed_issue in Hissue;
                          split_conjunction Hissue; presence;
                          rewrite !run_bind_get by assumption;
                          rewrite (run_bind_return _ _ _ _
                                     (js_map_get "issue.labels.map" (field issue "labels")
                                        "name" (Some client)
                                        ltac:(assumption) ltac:(assumption)));
                          rewrite run_bind_get by assumption;
                          rewrite (run_bind_return _ _ _ _
                                     (js_map_get "issue.assignees.map"
                                        (field issue "assignees") "login" (Some client)
                                        ltac:(assumption) ltac:(assumption)));
                          reflexivity)
                    Hgood
                    ltac:(cbv beta; rewrite !run_bind_get by assumption;
                          apply run_bind_get_nullish; assumption)))
  end.
  reflexivity.
Qed.

Lemma list_issues_author_missing_witness :
  fst (list_issues (host := stub_host) sample_args
         (Some (answering (VArr [sample_issue; authorless_issue])))) =
  Return
    (VObj [("error",
            VStr "GitHub API error: Cannot read properties of null (reading 'login')")]).
Proof.
  exact (list_issues_author_missing (host := stub_host) sample_args
           (answering (VArr [sample_issue; authorless_issue]))
           (VObj [("status", VNum 200);
                  ("data", VArr [sample_issue; authorless_issue])])
           [sample_issue] authorless_issue []
           eq_refl eq_refl eq_refl eq_refl eq_refl eq_refl).
Defined.

Lemma js_map_pointwise {host : Host} callee (f : value -> M value) g ok items octokit :
  (forall x, ok x = true -> f x octokit = (Return (g x), [])) ->
  forallb ok items = true ->
  js_map callee (VArr items) f octokit = (Return (VArr (map g items)), []).
Proof.
  intros Hf Hok. cbn [js_map].
  rewrite (run_bind_return _ _ _ _ (mapM_pointwise f g ok items octokit Hf Hok)).
  reflexivity.
Qed.

(** X13.  When the search request was answered with a payload whose
    [items] is an array of objects, [search_files] returns [total_count]
    and, per item in order, [name], [path], [sha], [html_url] as [url] and
    [score]; [search_code] returns the same with [text_matches] added, an
    empty array when the item has none. *)
Theorem search_results {host : Host} args client params response items :
  In (Requested search_code_ params) (snd (search_files args (Some client))) ->
  client search_code_ params = Return response ->
  field (field response "data") "items" = VArr items ->
  forallb present items = true ->
  fst (search_files args (Some client)) =
    Return (VObj [("total_count", field (field response "data") "total_count");
                  ("items", VArr (map file_match items))]) /\
  fst (search_code args (Some client)) =
    Return (VObj [("total_count", field (field response "data") "total_count");
                  ("items", VArr (map code_match items))]).
Proof.
  intros Hin Hclient Hitems Hpresent.
  assert (Hdata : nullish (field response "data") = false)
    by (apply (field_present _ "items"); rewrite Hitems; reflexivity).
  pose proof (field_present _ _ Hdata) as Hresponse.
  rewrite search_files_trace in Hin.
  pose proof (pure_run (search_query args) (Some client) (pure_search_query args))
    as Hquery.
  destruct (fst (search_query args (Some client))) as [q | e]; [| destruct Hin].
  destruct Hin as [Heq | []]. injection Heq as <-.
  split.
  - unfold search_files.
    rewrite run_try_catch, (run_bind_return _ _ _ _ Hquery), run_bind_rest.
    rewrite run_bind_request, Hclient.
    rewrite run_bind_destructure by assumption.
    rewrite !run_bind_get, Hitems by assumption.
    match goal with
    | |- context [js_map ?callee (VArr items) ?f] =>
        rewrite (run_bind_return (js_map callee (VArr items) f) _ (Some client)
                   (VArr (map file_match items)))
    end.
    + reflexivity.
    + apply (js_map_pointwise _ _ file_match present); [| exact Hpresent].
      intros item Hitem. presence.
      rewrite !run_bind_get by assumption. reflexivity.
  - unfold search_code.
    rewrite run_try_catch, (run_bind_return _ _ _ _ Hquery), run_bind_rest.
    rewrite run_bind_request, Hclient.
    rewrite run_bind_destructure by assumption.
    rewrite !run_bind_get, Hitems by assumption.
    match goal with
    | |- context [js_map ?callee (VArr items) ?f] =>
        rewrite (run_bind_return (js_map callee (VArr items) f) _ (Some client)
                   (VArr (map code_match items)))
    end.
    + reflexivity.
    + apply (js_map_pointwise _ _ code_match present); [| exact Hpresent].
      intros item Hitem. presence.
      rewrite !run_bind_get by assumption. reflexivity.
Qed.

Lemma search_results_witness :
  fst (search_code (host := stub_host)
         (VObj [("owner", VStr "jquery"); ("repo", VStr "jquery");
                ("query", VStr "addClass")])
         (Some (answering (VObj [("total_count", VNum 1);
                                 ("items", VArr [sample_match])])))) =
  Return
    (VObj [("total_count", VNum 1);
           ("items",
            VArr [VObj [("name", VStr "classes.js");
                        ("path", VStr "src/attributes/classes.js");
                        ("sha", VStr "d7212f9dee2dcc18f084d7df8f417b80846ded5a");
                        ("url", VStr "https://github.com/jquery/jquery/blob/825ac37/src/attributes/classes.js");
                        ("score", VNum 1); ("text_matches", VArr [])]])]).
Proof.
  refine (proj2 (search_results (host := stub_host)
                   (VObj [("owner", VStr "jquery"); ("repo", VStr "jquery");
                          ("query", VStr "addClass")])
                   (answering (VObj [("total_count", VNum 1);
                                     ("items", VArr [sample_match])]))
                   (VObj [("q", VStr "addClass repo:jquery/jquery");
                          ("per_page", VNum 30)])
                   (VObj [("status", VNum 200);
                          ("data", VObj [("total_count", VNum 1);
                                         ("items", VArr [sample_match])])])
                   [sample_match] _ eq_refl eq_refl eq_refl)).
  vm_compute. left. reflexivity.
Defined.

(** X14.  Given an arguments object and an answer with a payload,
    whenever the payload's [type] is not exactly the string "file" (a
    symlink, a submodule, a directory, or no [type] at all)
    [get_file_contents] returns [{error: "Path is not a file"}] after its
    one request, and does not look at the content. *)
Theorem get_file_contents_other_type {host : Host} args client response :
  nullish args = false ->
  let params :=
    VObj [("owner", field args "owner"); ("repo", field args "repo");
          ("path", field args "path");
          ("ref", or_else (field args "ref") (VStr "main"))] in
  client repos_getContent params = Return response ->
  nullish (field response "data") = false ->
  is_string (field (field response "data") "type") "file" = false ->
  get_file_contents args (Some client) =
  (Return (VObj [("error", VStr "Path is not a file")]),
   [Requested repos_getContent params]).
Proof.
  intros Hargs params Hclient Hdata Htype.
  pose proof (field_present _ _ Hdata) as Hresponse.
  unfold get_file_contents.
  rewrite run_try_catch, run_bind_rest.
  rewrite !run_bind_get by assumption.
  fold params. rewrite run_bind_request, Hclient.
  rewrite run_bind_destructure by assumption.
  rewrite run_bind_get by assumption.
  rewrite Htype. reflexivity.
Qed.

Lemma get_file_contents_other_type_witness :
  get_file_contents (host := stub_host)
    (VObj [("owner", VStr "octocat"); ("repo", VStr "Hello-World");
           ("path", VStr "bin/some-symlink"); ("ref", VStr "v1.0")])
    (Some (answering (VObj [("type", VStr "symlink");
                            ("target", VStr "/path/to/symlink/target")]))) =
  (Return (VObj [("error", VStr "Path is not a file")]),
   [Requested repos_getContent
      (VObj [("owner", VStr "octocat"); ("repo", VStr "Hello-World");
             ("path", VStr "bin/some-symlink"); ("ref", VStr "v1.0")])]).
Proof.
  exact (get_file_contents_other_type (host := stub_host)
           (VObj [("owner", VStr "octocat"); ("repo", VStr "Hello-World");
                  ("path", VStr "bin/some-symlink"); ("ref", VStr "v1.0")])
           (answering (VObj [("type", VStr "symlink");
                             ("target", VStr "/path/to/symlink/target")]))
           (VObj [("status", VNum 200);
                  ("data", VObj [("type", VStr "symlink");
                                 ("target", VStr "/path/to/symlink/target")])])
           eq_refl eq_refl eq_refl eq_refl).
Defined.

(** X15.  The content of a file is never rejected as malformed base64:
    for a file payload whose [content] is any 7-bit string,
    [get_file_contents] succeeds, with the text decoded from whatever
    sextets the string holds before its first [=]; an empty content gives
    an empty text. *)
Theorem get_file_contents_lenient {host : Host} args client response encoded :
  nullish args = false ->
  let params :=
    VObj [("owner", field args "owner"); ("repo", field args "repo");
          ("path", field args "path");
          ("ref", or_else (field args "ref") (VStr "main"))] in
  let data := field response "data" in
  client repos_getContent params = Return response ->
  field data "type" = VStr "file" ->
  field data "content" = VStr encoded ->
  seven_bit encoded = true ->
  get_file_contents args (Some client) =
    (Return (VObj [("name", field data "name"); ("path", field data "path");
                   ("size", field data "size");
                   ("content", VStr (toString_utf8 (octets (sextets encoded))));
                   ("sha", field data "sha")]),
     [Requested repos_getContent params]) /\
  (encoded = EmptyString -> toString_utf8 (octets (sextets encoded)) = EmptyString).
Proof.
  intros Hargs params data Hclient Htype Hcontent H7.
  split; [| intros ->; reflexivity].
  pose proof (field_string_present _ _ _ Htype) as Hdata.
  pose proof (field_present _ _ Hdata) as Hresponse.
  unfold get_file_contents.
  rewrite run_try_catch, run_bind_rest.
  rewrite !run_bind_get by assumption.
  fold params. rewrite run_bind_request, Hclient.
  rewrite run_bind_destructure by assumption. fold data.
  rewrite run_bind_get by assumption.
  rewrite Htype. cbn [is_string]. cbn match.
  replace ("file" =? "file")%string with true by reflexivity.
  rewrite run_bind_get, Hcontent by assumption.
  cbn [Buffer_from_base64]. rewrite H7, run_bind_ret.
  rewrite !run_bind_get by assumption.
  reflexivity.
Qed.

Lemma get_file_contents_lenient_witness :
  fst (get_file_contents (host := stub_host)
         (VObj [("owner", VStr "octocat"); ("repo", VStr "Hello-World");
                ("path", VStr "README")])
         (Some (answering (VObj [("type", VStr "file"); ("name", VStr "README");
                                 ("content", VStr "aGk*!=aGk=")])))) =
  Return (VObj [("name", VStr "README"); ("path", VUndefined);
                ("size", VUndefined); ("content", VStr "hi");
                ("sha", VUndefined)]).
Proof.
  exact (f_equal fst
           (proj1 (get_file_contents_lenient (host := stub_host)
                     (VObj [("owner", VStr "octocat"); ("repo", VStr "Hello-World");
                            ("path", VStr "README")])
                     (answering (VObj [("type", VStr "file"); ("name", VStr "README");
                                       ("content", VStr "aGk*!=aGk=")]))
                     (VObj [("status", VNum 200);
                            ("data", VObj [("type", VStr "file");
                                           ("name", VStr "README");
                                           ("content", VStr "aGk*!=aGk=")])])
                     "aGk*!=aGk=" eq_refl eq_refl eq_refl eq_refl eq_refl))).
Defined.

(** *** Discovery and start-up *)

Lemma post_tools_registered {host : Host} t reqBody client :
  nullish reqBody = false ->
  exists result tr,
    post_tools (tool_name t) reqBody (Some client) = (Return (json 200 result), tr).
Proof.
  intros Hbody. unfold post_tools. rewrite run_post_tools_with by assumption.
  rewrite (toolImplementations_own _ _ (own_property_tool_name t)). cbn zeta.
  destruct (adapter_returns t (field reqBody "arguments") (Some client))
    as [result Hresult].
  destruct (adapter t (field reqBody "arguments") (Some client)) as [r tr].
  cbn in Hresult. subst r. do 2 eexists. reflexivity.
Qed.

(** X16.  [GET /tools] answers 200 with six descriptors, one per
    implemented tool and in the order of the implementations, each filed
    in the registry under its own name; and every tool it lists can be
    called: with a body and a credential, [POST /tools/<name>] answers
    200. *)
Theorem get_tools_lists_the_implementations {host : Host} :
  statusCode get_tools = 200%Z /\
  map (fun descriptor => field descriptor "name") (elements (body get_tools)) =
    map (fun t => VStr (tool_name t)) all_tools /\
  map VStr (Object_keys tools) =
    map (fun descriptor => field descriptor "name") (Object_values tools) /\
  (forall descriptor,
      In descriptor (elements (body get_tools)) ->
      exists t,
        field descriptor "name" = VStr (tool_name t) /\
        forall reqBody client,
          nullish reqBody = false ->
          exists result tr,
            post_tools (tool_name t) reqBody (Some client) =
            (Return (json 200 result), tr)).
Proof.
  split; [reflexivity |]. split; [reflexivity |]. split; [reflexivity |].
  intros descriptor Hin. cbn in Hin.
  repeat destruct Hin as [<- | Hin];
      [ exists Tget_repository_info | exists Tlist_issues
      | exists Tget_file_contents | exists Tsearch_files
      | exists Tget_commits | exists Tsearch_code | destruct Hin ];
      (split; [reflexivity |]); intros reqBody client Hbody;
      apply post_tools_registered; exact Hbody.
Qed.

(** X17.  The credential is only tested for truthiness when the module
    loads.  With [GITHUB_TOKEN] unset or empty no client exists and every
    registered tool answers 500 "GitHub token not configured"; with any
    other token the client is constructed unchecked and every registered
    tool answers 200, a bad token showing only in the body. *)
Theorem token_decides_the_service {host : Host} new_Octokit (env : Env) toolName t reqBody :
  own_property toolName = Some t ->
  nullish reqBody = false ->
  match env "GITHUB_TOKEN" with
  | None | Some EmptyString =>
      post_tools toolName reqBody (octokit_at_startup new_Octokit env) =
      (Return (json 500 (VObj [("error", VStr "GitHub token not configured")])), [])
  | Some token =>
      exists result tr,
        post_tools toolName reqBody (octokit_at_startup new_Octokit env) =
          (Return (json 200 result), tr) /\
        post_tools toolName reqBody (octokit_at_startup new_Octokit env) =
          post_tools toolName reqBody (Some (new_Octokit token))
  end.
Proof.
  intros Hown Hbody. unfold octokit_at_startup.
  apply own_property_name in Hown as ->.
  destruct (env "GITHUB_TOKEN") as [[| c token] |].
  - cbn. unfold post_tools. rewrite run_post_tools_with by assumption.
    rewrite (toolImplementations_own _ _ (own_property_tool_name t)). reflexivity.
  - cbn [String.eqb].
    destruct (post_tools_registered t reqBody (new_Octokit (String c token)) Hbody)
      as (result & tr & Hrun).
    exists result, tr. split; [exact Hrun | reflexivity].
  - unfold post_tools. rewrite run_post_tools_with by assumption.
    rewrite (toolImplementations_own _ _ (own_property_tool_name t)). reflexivity.
Qed.

Lemma token_decides_the_service_witness :
  post_tools (host := stub_host) "search_code" sample_body
    (octokit_at_startup (fun _ => rejecting 401 "Bad credentials")
       (fun name => if (name =? "GITHUB_TOKEN")%string then Some EmptyString else None)) =
  (Return (json 500 (VObj [("error", VStr "GitHub token not configured")])), []).
Proof.
  exact (token_decides_the_service (host := stub_host)
           (fun _ => rejecting 401 "Bad credentials")
           (fun name => if (name =? "GITHUB_TOKEN")%string then Some EmptyString else None)
           "search_code" Tsearch_code sample_body eq_refl eq_refl).
Defined.
